(** * Pileus API service: a shallow embedding of [pileus_API_service.py]

    The Python class [PileusAPIService] is embedded as a record of its
    attributes; its methods are computations in a state-and-exception monad
    over the service object and the observable world (log records, issued
    HTTP requests, console output, file-system operations).  Everything the
    program cannot decide by itself (what the remote API answers, whether a
    directory can be created, what the operator types) is read from an
    [environment] of oracles, over which all theorems quantify. *)

From Stdlib Require Import ZArith List String Ascii Bool Lia.
From Stdlib Require Import Floats.SpecFloat.
Import ListNotations.
Open Scope string_scope.
Open Scope Z_scope.

(** ** Python values *)

(** The values that reach the service: [None], booleans, integers, floats
    (IEEE-754 binary64, given by their specification), strings, and the
    lists and objects of a decoded JSON body.  A [dict] is kept as an
    insertion-ordered association list, as Python keeps it; its keys are
    distinct, so a lookup reads the one entry of a key. *)
#[warnings="-register-all"]
Inductive pyval : Type :=
| PNone
| PBool (b : bool)
| PInt (z : Z)
| PFloat (f : spec_float)
| PStr (s : string)
| PList (l : list pyval)
| PDict (d : list (string * pyval)).

Inductive exn : Type :=
| AttributeError (msg : string)
| TypeError (msg : string)
| ValueError (msg : string)
| OverflowError (msg : string)
| OSError (msg : string)
| EOFError.

Module Py.

(** [bool(v)]: Python's truth value. *)
Definition truthy (v : pyval) : bool :=
  match v with
  | PNone => false
  | PBool b => b
  | PInt z => negb (z =? 0)
  | PFloat f => match f with S754_zero _ => false | _ => true end
  | PStr s => negb (s =? "")%string
  | PList l => match l with [] => false | _ => true end
  | PDict d => match d with [] => false | _ => true end
  end.

(** Truth value of an attribute that holds a [str] or [None]. *)
Definition truthy_opt (o : option string) : bool :=
  match o with
  | Some s => negb (s =? "")%string
  | None => false
  end.

(** [v is not None] *)
Definition is_not_none (v : pyval) : bool :=
  match v with PNone => false | _ => true end.

(** [isinstance(v, str)] *)
Definition is_str (v : pyval) : bool :=
  match v with PStr _ => true | _ => false end.

Definition of_opt (o : option string) : pyval :=
  match o with Some s => PStr s | None => PNone end.

(** [o or None] on a [str]-or-[None] argument. *)
Definition or_none (o : option string) : pyval :=
  match o with
  | Some s => if (s =? "")%string then PNone else PStr s
  | None => PNone
  end.

(** [f"{o}"]: a [str] formats as itself, [None] as ["None"]. *)
Definition fmt (o : option string) : string :=
  match o with Some s => s | None => "None" end.

(** [d[k]] / [d.get(k)] in an association list. *)
Fixpoint dict_get (d : list (string * pyval)) (k : string) : option pyval :=
  match d with
  | [] => None
  | (k', v) :: d' => if (k' =? k)%string then Some v else dict_get d' k
  end.

Definition dict_keys (d : list (string * pyval)) : list string :=
  map fst d.

(** [v.get(k)]: only a [dict] has the method; a missing key gives [None]. *)
Definition get (v : pyval) (k : string) : exn + pyval :=
  match v with
  | PDict d => inr (match dict_get d k with Some x => x | None => PNone end)
  | PNone => inl (AttributeError "'NoneType' object has no attribute 'get'")
  | PBool _ => inl (AttributeError "'bool' object has no attribute 'get'")
  | PInt _ => inl (AttributeError "'int' object has no attribute 'get'")
  | PFloat _ => inl (AttributeError "'float' object has no attribute 'get'")
  | PStr _ => inl (AttributeError "'str' object has no attribute 'get'")
  | PList _ => inl (AttributeError "'list' object has no attribute 'get'")
  end.

(** [str.replace]: all non-overlapping occurrences, leftmost first.
    [skip] counts the characters of a match still to be dropped. *)
Fixpoint replace_from (old new : string) (skip : nat) (s : string) : string :=
  match s with
  | EmptyString => EmptyString
  | String c s' =>
      match skip with
      | S k => replace_from old new k s'
      | O =>
          if prefix old s
          then new ++ replace_from old new (Nat.pred (String.length old)) s'
          else String c (replace_from old new O s')
      end
  end.

(** [s[n:]] *)
Fixpoint drop (n : nat) (s : string) : string :=
  match n, s with
  | O, _ => s
  | S _, EmptyString => EmptyString
  | S k, String _ s' => drop k s'
  end.

(** With an empty [old], Python inserts [new] before every character and
    at the end. *)
Fixpoint intersperse (new s : string) : string :=
  match s with
  | EmptyString => new
  | String c s' => new ++ String c (intersperse new s')
  end.

Definition str_replace (s old new : string) : string :=
  match old with
  | EmptyString => intersperse new s
  | _ => replace_from old new O s
  end.

(** [v.replace(old, new)]: only a [str] has the method. *)
Definition replace (v : pyval) (old new : string) : exn + pyval :=
  match v with
  | PStr s => inr (PStr (str_replace s old new))
  | PNone => inl (AttributeError "'NoneType' object has no attribute 'replace'")
  | PBool _ => inl (AttributeError "'bool' object has no attribute 'replace'")
  | PInt _ => inl (AttributeError "'int' object has no attribute 'replace'")
  | PFloat _ => inl (AttributeError "'float' object has no attribute 'replace'")
  | PList _ => inl (AttributeError "'list' object has no attribute 'replace'")
  | PDict _ => inl (AttributeError "'dict' object has no attribute 'replace'")
  end.

(** Characters are code points below 256.  [str.isspace] holds there for
    TAB..CR, FS..US, SPACE, NEL and NBSP. *)
Definition is_space (c : ascii) : bool :=
  let n := nat_of_ascii c in
  ((9 <=? n) && (n <=? 13) || (28 <=? n) && (n <=? 32)
   || (n =? 133) || (n =? 160))%nat.

Definition is_digit (c : ascii) : bool :=
  let n := nat_of_ascii c in ((48 <=? n) && (n <=? 57))%nat.

Definition digit_val (c : ascii) : Z := Z.of_nat (nat_of_ascii c) - 48.

Fixpoint lstrip (l : list ascii) : list ascii :=
  match l with
  | c :: l' => if is_space c then lstrip l' else l
  | [] => []
  end.

Definition strip_chars (l : list ascii) : list ascii :=
  rev (lstrip (rev (lstrip l))).

(** [s.strip()] *)
Definition strip (s : string) : string :=
  string_of_list_ascii (strip_chars (list_ascii_of_string s)).

(** [c.lower()] for code points below 256: A..Z and the Latin-1 capitals
    (all of 192..222 but the multiplication sign) move up by 32. *)
Definition lower_char (c : ascii) : ascii :=
  let n := nat_of_ascii c in
  if ((65 <=? n) && (n <=? 90)
      || (192 <=? n) && (n <=? 222) && negb (n =? 215))%nat
  then ascii_of_nat (n + 32) else c.

Fixpoint lower (s : string) : string :=
  match s with
  | EmptyString => EmptyString
  | String c s' => String (lower_char c) (lower s')
  end.

(** Decimal digits with single underscores between them, as [int(str)]
    accepts them; [seen] tells whether the previous character was a
    digit. *)
Fixpoint parse_digits (seen : bool) (acc : Z) (l : list ascii) : option Z :=
  match l with
  | [] => if seen then Some acc else None
  | c :: l' =>
      if is_digit c then parse_digits true (10 * acc + digit_val c) l'
      else if (Ascii.eqb c "_" && seen)%bool then parse_digits false acc l'
      else None
  end.

(** [int(s)] on a [str], base 10: surrounding white space, an optional
    sign, then the digits. *)
Definition int_of_string (s : string) : option Z :=
  match strip_chars (list_ascii_of_string s) with
  | c :: l =>
      if Ascii.eqb c "-" then option_map Z.opp (parse_digits false 0 l)
      else if Ascii.eqb c "+" then parse_digits false 0 l
      else parse_digits false 0 (c :: l)
  | [] => None
  end.

(** [int(f)] on a [float]: truncation towards zero. *)
Definition int_of_float (f : spec_float) : exn + Z :=
  match f with
  | S754_zero _ => inr 0
  | S754_infinity _ =>
      inl (OverflowError "cannot convert float infinity to integer")
  | S754_nan => inl (ValueError "cannot convert float NaN to integer")
  | S754_finite sgn m e =>
      let mag := if 0 <=? e then Z.shiftl (Zpos m) e
                 else Z.shiftr (Zpos m) (- e) in
      inr (if sgn then - mag else mag)
  end.

(** The builtin [int(v)]. *)
Definition int (v : pyval) : exn + Z :=
  match v with
  | PNone =>
      inl (TypeError "int() argument must be a string, a bytes-like object or a real number, not 'NoneType'")
  | PBool b => inr (if b then 1 else 0)
  | PInt z => inr z
  | PFloat f => int_of_float f
  | PStr s =>
      match int_of_string s with
      | Some z => inr z
      | None => inl (ValueError "invalid literal for int() with base 10")
      end
  | PList _ =>
      inl (TypeError "int() argument must be a string, a bytes-like object or a real number, not 'list'")
  | PDict _ =>
      inl (TypeError "int() argument must be a string, a bytes-like object or a real number, not 'dict'")
  end.

End Py.

(** ** The world around the service *)

Inductive level : Type := INFO | WARNING | ERROR.

(** A call [logging.<level>(fmt, *args)]. *)
Record log_record : Type := LogRecord {
  lvl : level;
  fmt : string;
  args : list pyval
}.

Inductive http_method : Type := GET | POST.

(** A call [requests.get/post(url, headers=..., json=..., timeout=...)]. *)
Record request : Type := Request {
  meth : http_method;
  url : string;
  headers : list (string * pyval);
  json_payload : option (list (string * pyval));
  timeout : Z
}.

(** What [response.json()] does: the decoded body, or a decoding error. *)
Inductive json_result : Type :=
| Decoded (v : pyval)
| DecodeError (msg : string).

Record http_response : Type := Response {
  status_code : Z;
  text : string;
  json : json_result
}.

(** The outcome of one call into [requests]. *)
Inductive http_outcome : Type :=
| Timeout
| ConnectionError
| RequestException (e : string)
| Completed (r : http_response).

Inductive open_command : Type := StartFile | Open | XdgOpen.

Inductive fs_op : Type :=
| MakeDirs (path : string)
| WriteFile (path : string) (content : string)
| OpenFolder (cmd : open_command) (path : string).

(** The oracles: the remote API and the local machine.  A [Some] answer of
    [makedirs], [write_file] or [open_folder] is the message of the error
    raised. *)
Record environment : Type := Environment {
  transport : request -> http_outcome;
  (* whether the installed [requests] raises its own [JSONDecodeError], a
     [RequestException], from [response.json()] (2.27 and later) *)
  json_error_is_request_exception : bool;
  makedirs : string -> option string;
  write_file : string -> string -> option string;
  path_join : string -> string -> string;
  input : string -> option string;
  platform_system : string;
  open_folder : open_command -> string -> option string
}.

(** The attributes of a [PileusAPIService] object. *)
Record PileusAPIService : Type := Service {
  username : option string;
  password : option string;
  auth_token : pyval;
  api_key : pyval;
  account_api_key : pyval;
  debug : bool
}.

(** [PileusAPIService.__init__], after the credentials were resolved. *)
Definition init (user pass : option string) (dbg : bool) : PileusAPIService :=
  Service user pass PNone PNone PNone dbg.

Record state : Type := State {
  svc : PileusAPIService;
  log : list log_record;
  calls : list request;
  stdout : list pyval;
  fs : list fs_op
}.

Definition fresh (user pass : option string) : state :=
  State (init user pass false) [] [] [] [].

(** ** The monad of methods *)

Inductive result (A : Type) : Type :=
| Ok (a : A)
| Raise (e : exn).
Arguments Ok {A} a.
Arguments Raise {A} e.

Definition M (A : Type) : Type := state -> result A * state.

Definition ret {A} (a : A) : M A := fun st => (Ok a, st).

Definition raise {A} (e : exn) : M A := fun st => (Raise e, st).

Definition bind {A B} (m : M A) (k : A -> M B) : M B :=
  fun st =>
    match m st with
    | (Ok a, st') => k a st'
    | (Raise e, st') => (Raise e, st')
    end.

Notation "x <- m ;; k" := (bind m (fun x => k))
  (at level 61, m at next level, right associativity).
Notation "m ;;; k" := (bind m (fun _ => k))
  (at level 61, right associativity).

Definition lift {A} (r : exn + A) : M A :=
  match r with inl e => raise e | inr a => ret a end.

Definition when (b : bool) (m : M unit) : M unit :=
  if b then m else ret tt.

Definition get_self : M PileusAPIService := fun st => (Ok (svc st), st).

Definition set_self (s : PileusAPIService) : M unit :=
  fun st => (Ok tt, State s (log st) (calls st) (stdout st) (fs st)).

Definition set_auth_token (v : pyval) : M unit :=
  s <- get_self ;;
  set_self (Service (username s) (password s) v (api_key s)
                    (account_api_key s) (debug s)).

Definition set_api_key (v : pyval) : M unit :=
  s <- get_self ;;
  set_self (Service (username s) (password s) (auth_token s) v
                    (account_api_key s) (debug s)).

Definition set_account_api_key (v : pyval) : M unit :=
  s <- get_self ;;
  set_self (Service (username s) (password s) (auth_token s) (api_key s)
                    v (debug s)).

Definition logging (l : level) (f : string) (a : list pyval) : M unit :=
  fun st => (Ok tt, State (svc st) (log st ++ [LogRecord l f a]) (calls st)
                          (stdout st) (fs st)).

Definition print (v : pyval) : M unit :=
  fun st => (Ok tt, State (svc st) (log st) (calls st) (stdout st ++ [v])
                          (fs st)).

Definition fs_do (op : fs_op) : M unit :=
  fun st => (Ok tt, State (svc st) (log st) (calls st) (stdout st)
                          (fs st ++ [op])).

Definition result_of {A} (r : result A * state) : result A := fst r.
Definition state_of {A} (r : result A * state) : state := snd r.

(** ** The service *)

Definition BASE_AUTH_URL : string :=
  "https://tokenizer.mypileus.io/prod/credentials".
Definition BASE_API_URL : string := "https://api.mypileus.io/api/v1".
Definition BASE_API_V2_URL : string := "https://api.mypileus.io/api/v2".

(** [AccountType.DEDICATED.value], [AccountType.SHARED.value] *)
Definition DEDICATED : string := "dedicated".
Definition SHARED : string := "shared".

Section Service.

Variable env : environment.

(** One call into [requests]: the request is issued and the environment
    answers. *)
Definition requests_call (rq : request) : M http_outcome :=
  fun st => (Ok (transport env rq),
             State (svc st) (log st) (calls st ++ [rq]) (stdout st) (fs st)).

Definition send_post_request (u : string) (hs : list (string * pyval))
    (payload : list (string * pyval)) : M pyval :=
  out <- requests_call (Request POST u hs (Some payload) 100) ;;
  match out with
  | Completed response =>
      logging INFO "POST Request to %s - Status Code: %s"
              [PStr u; PInt (status_code response)] ;;;
      when (negb (status_code response =? 200))
           (logging ERROR "POST request failed: %s"
                    [PStr (text response)]) ;;;
      match json response with
      | Decoded v => ret v
      | DecodeError _ => ret (PStr (text response))
      end
  | Timeout =>
      logging ERROR "POST request to %s timed out." [PStr u] ;;;
      ret PNone
  | ConnectionError =>
      logging ERROR
        "Connection error occurred when sending POST request to %s."
        [PStr u] ;;;
      ret PNone
  | RequestException e =>
      logging ERROR "An unexpected error occurred: %s" [PStr e] ;;;
      ret PNone
  end.

Definition send_get_request (u : string) (hs : list (string * pyval))
    : M pyval :=
  out <- requests_call (Request GET u hs None 100) ;;
  match out with
  | Completed response =>
      logging INFO "GET Request to %s - Status Code: %s"
              [PStr u; PInt (status_code response)] ;;;
      logging INFO "POST Request to %s - Response Text: %s"
              [PStr u; PStr (text response)] ;;;
      when (negb (status_code response =? 200))
           (logging ERROR "GET request failed: %s"
                    [PStr (text response)]) ;;;
      if status_code response =? 200 then
        match json response with
        | Decoded v => ret v
        | DecodeError msg =>
            if json_error_is_request_exception env then
              logging ERROR "An unexpected error occurred: %s"
                      [PStr msg] ;;;
              ret PNone
            else raise (ValueError msg)
        end
      else ret PNone
  | Timeout =>
      logging ERROR "GET request to %s timed out." [PStr u] ;;;
      ret PNone
  | ConnectionError =>
      logging ERROR
        "Connection error occurred when sending GET request to %s."
        [PStr u] ;;;
      ret PNone
  | RequestException e =>
      logging ERROR "An unexpected error occurred: %s" [PStr e] ;;;
      ret PNone
  end.

Definition auth_payload (self : PileusAPIService)
    : list (string * pyval) :=
  [("username", Py.of_opt (username self));
   ("password", Py.of_opt (password self))].

Definition auth_headers : list (string * pyval) :=
  [("Content-Type", PStr "application/json")].

Definition authenticate : M pyval :=
  self <- get_self ;;
  if negb (Py.truthy_opt (username self))
     || negb (Py.truthy_opt (password self))
  then
    logging ERROR
      "Missing credentials. Set them in config.ini or as environment variables."
      [] ;;;
    ret (PBool false)
  else
    response <- send_post_request BASE_AUTH_URL auth_headers
                                  (auth_payload self) ;;
    (if Py.truthy response then
       tok <- lift (Py.get response "Authorization") ;;
       set_auth_token tok ;;;
       key <- lift (Py.get response "apikey") ;;
       set_api_key key ;;;
       acc <- lift (Py.replace key "-1" "18745:0") ;;
       set_account_api_key acc
     else ret tt) ;;;
    self' <- get_self ;;
    ret (PBool (Py.truthy (auth_token self')
                && Py.truthy (api_key self'))).

(** The guard every operation starts with:
    [not self.auth_token or not self.api_key]. *)
Definition not_authenticated (self : PileusAPIService) : bool :=
  negb (Py.truthy (auth_token self)) || negb (Py.truthy (api_key self)).

Definition get_list_of_users : M pyval :=
  self <- get_self ;;
  if not_authenticated self then
    logging ERROR "Authentication required. Please authenticate first."
            [] ;;;
    ret PNone
  else
    send_get_request (BASE_API_URL ++ "/users")
      [("Authorization", auth_token self); ("apikey", api_key self)].

Definition get_users_and_roles : M pyval :=
  self <- get_self ;;
  if not_authenticated self then
    logging ERROR "Authentication required. Please authenticate first."
            [] ;;;
    ret PNone
  else
    send_get_request (BASE_API_URL ++ "/users/with-roles")
      [("Authorization", auth_token self); ("apikey", api_key self)].

Definition onboarding_url (account_id : option string) : string :=
  BASE_API_V2_URL ++ "/onboarding/aws/" ++ Py.fmt account_id.

Definition onboarding_headers (self : PileusAPIService)
    : list (string * pyval) :=
  [("Authorization", auth_token self);
   ("apikey", account_api_key self);
   ("Content-Type", PStr "application/json")].

(** [bucket_name if bucket_name else f"cur-{account_id}"] *)
Definition bucket_name_or_default (bucket_name account_id : option string)
    : pyval :=
  if Py.truthy_opt bucket_name then Py.of_opt bucket_name
  else PStr ("cur-" ++ Py.fmt account_id).

Definition onboard_aws_account (account_id account_name : option string)
    (bucket_name bucket_region : option string) : M pyval :=
  self <- get_self ;;
  if not_authenticated self then
    logging ERROR "Authentication required. Please authenticate first."
            [] ;;;
    ret PNone
  else
    let payload :=
      [("accountName", Py.of_opt account_name);
       ("bucketName", bucket_name_or_default bucket_name account_id);
       ("bucketRegion", Py.of_opt bucket_region)] in
    send_post_request (onboarding_url account_id)
                      (onboarding_headers self) payload.

(** The call [onboard_aws_account(account_id, account_name)], the two
    keyword parameters at their defaults. *)
Definition onboard_aws_account_defaults
    (account_id account_name : option string) : M pyval :=
  onboard_aws_account account_id account_name None (Some "us-east-1").

(** The arguments of [onboard_aws_account_msp]. *)
Record msp_args : Type := MspArgs {
  account_id : option string;
  account_name : option string;
  bucket_name : option string;
  bucket_region : option string;
  account_type : pyval;
  reseller_customer_id : option string;
  reseller_customer_name : option string;
  is_customer_self_managed : pyval;
  reseller_customer_domain : option string;
  auto_assign_linked_accounts : pyval;
  excluded_linked_account_match : option string
}.

(** The parameters' defaults, for a call that gives the three positional
    arguments only. *)
Definition msp_defaults (id name bucket : option string) : msp_args :=
  MspArgs id name bucket (Some "us-east-1") (PStr DEDICATED)
          None None PNone None PNone None.

(** The [payload] literal, given the values of its three [int(...)]. *)
Definition msp_payload_literal (a : msp_args) (ty sm aa : Z)
    : list (string * pyval) :=
  [("accountName", Py.of_opt (account_name a));
   ("bucketName", bucket_name_or_default (bucket_name a) (account_id a));
   ("bucketRegion",
    if Py.truthy_opt (bucket_region a) then Py.of_opt (bucket_region a)
    else PStr "us-east-1");
   ("accountType", PStr (if negb (ty =? 0) then DEDICATED else SHARED));
   ("resellerCustomerId", Py.or_none (reseller_customer_id a));
   ("resellerCustomerName", Py.or_none (reseller_customer_name a));
   ("isCustomerSelfManaged", PInt sm);
   ("resellerCustomerDomain", Py.or_none (reseller_customer_domain a));
   ("autoAssignLinkedAccounts", PInt aa);
   ("excludedLinkedAccountMatch",
    Py.or_none (excluded_linked_account_match a))].

(** The literal is evaluated entry by entry; an [int(...)] that fails
    raises there. *)
Definition msp_payload (a : msp_args) : M (list (string * pyval)) :=
  ty <- lift (Py.int (account_type a)) ;;
  sm <- lift (Py.int (is_customer_self_managed a)) ;;
  aa <- lift (Py.int (auto_assign_linked_accounts a)) ;;
  ret (msp_payload_literal a ty sm aa).

(** [{k: v for k, v in payload.items() if v is not None}] *)
Definition remove_none (payload : list (string * pyval))
    : list (string * pyval) :=
  filter (fun kv => Py.is_not_none (snd kv)) payload.

Definition open_command_for (system_platform : string) : open_command :=
  if (system_platform =? "Windows")%string then StartFile
  else if (system_platform =? "Darwin")%string then Open
  else XdgOpen.

(** The branch taken when the response is a raw script. *)
Definition save_script (a : msp_args) (script : string) : M unit :=
  let folder_name := Py.fmt (account_name a) ++ "_" ++ Py.fmt (account_id a) in
  match makedirs env folder_name with
  | Some e => raise (OSError e)
  | None =>
      fs_do (MakeDirs folder_name) ;;;
      let script_path := path_join env folder_name "setup.sh" in
      match write_file env script_path script with
      | Some e => raise (OSError e)
      | None =>
          fs_do (WriteFile script_path script) ;;;
          logging INFO "Script saved to %s" [PStr script_path] ;;;
          match input env "Do you want to open the folder? (y/n): " with
          | None => raise EOFError
          | Some line =>
              let open_prompt := Py.lower (Py.strip line) in
              if (open_prompt =? "y")%string then
                print (PStr ("Opening folder: " ++ folder_name)) ;;;
                let cmd := open_command_for (platform_system env) in
                fs_do (OpenFolder cmd folder_name) ;;;
                match open_folder env cmd folder_name with
                | None => logging INFO "Opened folder: %s" [PStr folder_name]
                | Some e =>
                    logging WARNING "Could not open folder: %s" [PStr e]
                end
              else ret tt
          end
      end
  end.

Definition onboard_aws_account_msp (a : msp_args) : M pyval :=
  self <- get_self ;;
  if not_authenticated self then
    logging ERROR "Authentication required. Please authenticate first."
            [] ;;;
    ret PNone
  else
    payload <- msp_payload a ;;
    let payload := remove_none payload in
    print (PDict payload) ;;;
    response <- send_post_request (onboarding_url (account_id a))
                                  (onboarding_headers self) payload ;;
    (* [if response and isinstance(response, str)] *)
    match response with
    | PStr script =>
        if Py.truthy response then save_script a script else ret tt
    | _ => ret tt
    end ;;;
    (* the body ends here: the method returns [None] *)
    ret PNone.

End Service.

(** ** Test doubles and the vocabulary of the statements *)

(** An environment whose remote end answers by [answer], on a machine where
    every local operation succeeds and the operator declines to open the
    folder. *)
Definition mock_env (answer : request -> http_outcome) : environment :=
  Environment answer true (fun _ => None) (fun _ _ => None)
              (fun a b => a ++ "/" ++ b) (fun _ => Some "n") "Linux"
              (fun _ _ => None).

Definition json_response (code : Z) (body : string) (v : pyval)
    : http_outcome :=
  Completed (Response code body (Decoded v)).

Definition text_response (code : Z) (body : string) : http_outcome :=
  Completed (Response code body (DecodeError "Expecting value")).

(** A service that went through a successful authentication. *)
Definition authenticated_state : state :=
  State (Service (Some "user") (Some "secret") (PStr "tok") (PStr "key-1")
                 (PStr "key18745:0") false) [] [] [] [].

Definition empty_or_absent (o : option string) : Prop :=
  o = None \/ o = Some "".

Definition missing_credentials_record : log_record :=
  LogRecord ERROR
    "Missing credentials. Set them in config.ini or as environment variables."
    [].

Definition authentication_required_record : log_record :=
  LogRecord ERROR "Authentication required. Please authenticate first." [].

(** Appending one record to the log and changing nothing else. *)
Definition logged (st : state) (r : log_record) : state :=
  State (svc st) (log st ++ [r]) (calls st) (stdout st) (fs st).

(** What [send_post_request] hands back for a completed exchange. *)
Definition body_of (r : http_response) : pyval :=
  match json r with
  | Decoded v => v
  | DecodeError _ => PStr (text r)
  end.

Definition credentials_present (self : PileusAPIService) : Prop :=
  Py.truthy_opt (username self) = true /\ Py.truthy_opt (password self) = true.

(** The request [authenticate] sends. *)
Definition auth_request (self : PileusAPIService) : request :=
  Request POST BASE_AUTH_URL auth_headers (Some (auth_payload self)) 100.

(** The call [authenticate] makes into the transport. *)
Definition auth_call env (st : state) : result pyval * state :=
  send_post_request env BASE_AUTH_URL auth_headers (auth_payload (svc st)) st.

(** The value [response.get(k)] of an object. *)
Definition field (d : list (string * pyval)) (k : string) : pyval :=
  match Py.dict_get d k with Some x => x | None => PNone end.

(** The account-scoped key: [api_key.replace("-1", "18745:0")]. *)
Definition derive_account_key (key : string) : string :=
  Py.str_replace key "-1" "18745:0".

Definition never_authenticated (self : PileusAPIService) : Prop :=
  auth_token self = PNone /\ api_key self = PNone
  /\ account_api_key self = PNone.

(** The invariant of a service object that only [__init__] and the methods
    have written to: tokens are stored only where credentials are. *)
Definition consistent (self : PileusAPIService) : Prop :=
  credentials_present self \/ never_authenticated self.

(** The cases in which [authenticate] comes back: no credentials, or a
    falsy answer of the transport ([None], an empty body, an empty object,
    ...), or an object with a string under ["apikey"]. *)
Definition authenticate_answer_handled env (st : state) : Prop :=
  (empty_or_absent (username (svc st)) \/ empty_or_absent (password (svc st)))
  \/ exists v,
       result_of (auth_call env st) = Ok v
       /\ (Py.truthy v = false
           \/ exists d key,
                v = PDict d /\ Py.dict_get d "apikey" = Some (PStr key)).

(** The specification's wording: [True] is returned exactly when both
    tokens are present (not [None]) afterwards, and [False] otherwise. *)
Definition returns_true_iff_tokens_present env (st : state) : Prop :=
  let r := authenticate env st in
  exists b,
    result_of r = Ok (PBool b)
    /\ (b = true <->
        auth_token (svc (state_of r)) <> PNone
        /\ api_key (svc (state_of r)) <> PNone).

(** An auth endpoint that answers with an empty [Authorization]. *)
Definition empty_token_env : environment :=
  mock_env (fun _ =>
    json_response 200 "{'Authorization': '', 'apikey': 'key-1'}"
      (PDict [("Authorization", PStr ""); ("apikey", PStr "key-1")])).

Definition authenticated (self : PileusAPIService) : Prop :=
  Py.truthy (auth_token self) = true /\ Py.truthy (api_key self) = true.

(** What an MSP onboarding call transmits, when it transmits. *)
Definition msp_request (self : PileusAPIService) (a : msp_args)
    (ty sm aa : Z) : request :=
  Request POST (onboarding_url (account_id a)) (onboarding_headers self)
          (Some (remove_none (msp_payload_literal a ty sm aa))) 100.

Definition is_some (o : option string) : bool :=
  match o with Some _ => true | None => false end.

(** The request fields of an MSP onboarding call, each with whether its
    input value was given (is not [None]). *)
Definition field_table (a : msp_args) : list (string * bool) :=
  [("accountName", is_some (account_name a));
   ("bucketName", is_some (bucket_name a));
   ("bucketRegion", is_some (bucket_region a));
   ("accountType", Py.is_not_none (account_type a));
   ("resellerCustomerId", is_some (reseller_customer_id a));
   ("resellerCustomerName", is_some (reseller_customer_name a));
   ("isCustomerSelfManaged", Py.is_not_none (is_customer_self_managed a));
   ("resellerCustomerDomain", is_some (reseller_customer_domain a));
   ("autoAssignLinkedAccounts",
    Py.is_not_none (auto_assign_linked_accounts a));
   ("excludedLinkedAccountMatch", is_some (excluded_linked_account_match a))].

(** The fields that were given non-null values. *)
Definition given_fields (a : msp_args) : list string :=
  map fst (filter snd (field_table a)).

(** The call transmits the payload [p]: it issues one request, with [p]. *)
Definition transmits env (a : msp_args) (st : state)
    (p : list (string * pyval)) : Prop :=
  exists rq,
    calls (state_of (onboard_aws_account_msp env a st))
    = (calls st ++ [rq])%list
    /\ json_payload rq = Some p.

(** The specification's wording: the keys of a transmitted payload are
    among the fields given non-null values. *)
Definition payload_keys_within_given env (a : msp_args) (st : state) : Prop :=
  forall p, transmits env a st p -> incl (Py.dict_keys p) (given_fields a).

(** The call the menu makes when the operator leaves the bucket name and
    the bucket region empty. *)
Definition msp_args_no_bucket : msp_args :=
  MspArgs (Some "123") (Some "Acme") None None (PStr "1") None
          (Some "Reseller") (PInt 0) None (PInt 1) None.

Definition onboarding_ok_env : environment :=
  mock_env (fun _ => json_response 200 "{}" (PDict [("status", PStr "ok")])).

(** An auth endpoint whose answer has no [apikey]. *)
Definition no_apikey_env : environment :=
  mock_env (fun _ => json_response 200 "{'Authorization': 'tok'}"
                       (PDict [("Authorization", PStr "tok")])).

(** An auth endpoint that answers with an error page. *)
Definition error_page_env : environment :=
  mock_env (fun _ => text_response 503 "Service Unavailable").

(** The menu's call with the two flags left at their default [None]. *)
Definition msp_args_no_flags : msp_args :=
  MspArgs (Some "123") (Some "Acme") None None (PStr "1") None
          (Some "Reseller") PNone None PNone None.

(** ** The rest of the module: account lookup, credentials, the console *)

(** [find_account_by_condition]: the first account on which [condition]
    is truthy, [None] when there is none.  [condition] is given by the
    truth value of what the callable returns. *)
Definition find_account_by_condition (accounts : list pyval)
    (condition : pyval -> bool) : pyval :=
  match find condition accounts with
  | Some account => account
  | None => PNone
  end.



(** What the helpers write to the terminal: the prompt of an [input(...)],
    a printed line, and the line
    [f"Invalid input. Please enter one of {valid_options}"], kept with its
    list. *)
Inductive tty_event : Type :=
| Prompted (prompt : string)
| Printed (line : string)
| PrintedInvalid (valid_options : list string).

(** The terminal: the lines still to be read from standard input and what
    was written so far.  [input] raises [EOFError] when no line is left. *)
Record console : Type := Console {
  stdin : list string;
  tty : list tty_event
}.

(** [valid_options and user_input not in valid_options]; the parameter is a
    list or [None]. *)
Definition rejected_by (valid_options : option (list string))
    (user_input : string) : bool :=
  match valid_options with
  | Some (o :: opts) => negb (existsb (String.eqb user_input) (o :: opts))
  | Some [] => false
  | None => false
  end.

Definition options_of (valid_options : option (list string)) : list string :=
  match valid_options with Some opts => opts | None => [] end.

(** [get_valid_input]: the loop runs once per line read. *)
Fixpoint get_valid_input_from (prompt : string)
    (valid_options : option (list string)) (allow_empty : bool)
    (lines : list string) (out : list tty_event)
    : result (option string) * console :=
  match lines with
  | [] => (Raise EOFError, Console [] (out ++ [Prompted prompt]))
  | line :: rest =>
      let out := (out ++ [Prompted prompt])%list in
      let user_input := Py.strip line in
      if (user_input =? "")%string && negb allow_empty then
        get_valid_input_from prompt valid_options allow_empty rest
          (out ++ [Printed "Input cannot be empty. Please enter a valid value."])
      else if allow_empty && (user_input =? "")%string then
        (Ok None, Console rest out)
      else if rejected_by valid_options user_input then
        get_valid_input_from prompt valid_options allow_empty rest
          (out ++ [PrintedInvalid (options_of valid_options)])
      else (Ok (Some user_input), Console rest out)
  end.

Definition get_valid_input (prompt : string)
    (valid_options : option (list string)) (allow_empty : bool)
    (c : console) : result (option string) * console :=
  get_valid_input_from prompt valid_options allow_empty (stdin c) (tty c).

(** [get_boolean_input] *)
Fixpoint get_boolean_input_from (prompt : string) (lines : list string)
    (out : list tty_event) : result Z * console :=
  match lines with
  | [] => (Raise EOFError, Console [] (out ++ [Prompted prompt]))
  | line :: rest =>
      let out := (out ++ [Prompted prompt])%list in
      let user_input := Py.strip line in
      if existsb (String.eqb user_input) ["1"; "0"] then
        match Py.int (PStr user_input) with
        | inr z => (Ok z, Console rest out)
        | inl e => (Raise e, Console rest out)
        end
      else
        get_boolean_input_from prompt rest
          (out ++ [Printed "Invalid input. Please enter 1 for True or 0 for False."])
  end.

Definition get_boolean_input (prompt : string) (c : console)
    : result Z * console :=
  get_boolean_input_from prompt (stdin c) (tty c).



(** ** More vocabulary *)

(** What [send_post_request] returns for an outcome of the transport. *)
Definition answer_of (o : http_outcome) : pyval :=
  match o with
  | Completed r => body_of r
  | _ => PNone
  end.

Definition transport_failed (o : http_outcome) : Prop :=
  match o with Completed _ => False | _ => True end.

(** The requests of the two listing operations. *)
Definition users_request (self : PileusAPIService) : request :=
  Request GET (BASE_API_URL ++ "/users")
          [("Authorization", auth_token self); ("apikey", api_key self)]
          None 100.

Definition users_with_roles_request (self : PileusAPIService) : request :=
  Request GET (BASE_API_URL ++ "/users/with-roles")
          [("Authorization", auth_token self); ("apikey", api_key self)]
          None 100.

(** The folder and the path of a saved script. *)
Definition script_folder (a : msp_args) : string :=
  Py.fmt (account_name a) ++ "_" ++ Py.fmt (account_id a).

Definition script_path env (a : msp_args) : string :=
  path_join env (script_folder a) "setup.sh".

(** The operator said yes to opening the folder. *)
Definition says_yes (line : string) : bool :=
  (Py.lower (Py.strip line) =? "y")%string.

(** A text argument that counts: not [None] and not empty. *)
Definition nonempty (o : option string) : option string :=
  if Py.truthy_opt o then o else None.

(** An exception of the local machine, as opposed to one of a coercion. *)
Definition local_failure (e : exn) : Prop :=
  match e with OSError _ | EOFError => True | _ => False end.

(** No occurrence of [old] starts anywhere in [s]. *)
Fixpoint occurs_nowhere (old s : string) : bool :=
  match s with
  | EmptyString => true
  | String _ s' => negb (prefix old s) && occurs_nowhere old s'
  end.

(** The prompt of [onboard_aws_account_msp] after it saved a script. *)
Definition open_prompt_text : string :=
  "Do you want to open the folder? (y/n): ".

(** The record a saved script leaves in the log. *)
Definition script_saved_record env (a : msp_args) : log_record :=
  LogRecord INFO "Script saved to %s" [PStr (script_path env a)].

(** The record an attempt to open the folder leaves in the log. *)
Definition folder_opened_record env (a : msp_args) : log_record :=
  match open_folder env (open_command_for (platform_system env))
                    (script_folder a) with
  | None => LogRecord INFO "Opened folder: %s" [PStr (script_folder a)]
  | Some e => LogRecord WARNING "Could not open folder: %s" [PStr e]
  end.

(** The payload an MSP onboarding call sends once its coercions gave
    [ty], [sm] and [aa]. *)
Definition msp_sent_payload (a : msp_args) (ty sm aa : Z)
    : list (string * pyval) :=
  remove_none (msp_payload_literal a ty sm aa).

(** The answer to the request of an MSP onboarding call. *)
Definition msp_answer env (self : PileusAPIService) (a : msp_args)
    (ty sm aa : Z) : pyval :=
  answer_of (transport env (msp_request self a ty sm aa)).

(** A line [get_valid_input] ends its loop on: blank when blanks are
    allowed, or not blank and not rejected by the options. *)
Definition acceptable (valid_options : option (list string))
    (allow_empty : bool) (line : string) : bool :=
  if (Py.strip line =? "")%string then allow_empty
  else negb (rejected_by valid_options (Py.strip line)).

(** What [get_valid_input] returns on an acceptable line. *)
Definition accepted_value (line : string) : option string :=
  if (Py.strip line =? "")%string then None else Some (Py.strip line).

(** A line [get_boolean_input] ends its loop on. *)
Definition is_flag (line : string) : bool :=
  (Py.strip line =? "1")%string || (Py.strip line =? "0")%string.



(** The state in which the answer is looked at: the payload was printed,
    the request sent, the log extended; nothing else moved. *)
Definition after_request (st st1 : state) (a : msp_args) (ty sm aa : Z)
    : Prop :=
  svc st1 = svc st
  /\ (exists new, log st1 = (log st ++ new)%list)
  /\ calls st1 = (calls st ++ [msp_request (svc st) a ty sm aa])%list
  /\ stdout st1 = (stdout st ++ [PDict (msp_sent_payload a ty sm aa)])%list
  /\ fs st1 = fs st.



(** ** Proof support *)

Ltac unfold_m :=
  unfold bind, ret, raise, lift, when, logging, print, fs_do, get_self,
    set_self, set_auth_token, set_api_key, set_account_api_key,
    requests_call, result_of, state_of in *.

Lemma truthy_opt_false (o : option string) :
  empty_or_absent o -> Py.truthy_opt o = false.
Proof. intros [-> | ->]; reflexivity. Qed.

(** The transport functions never touch the service object, the console or
    the file system; they issue exactly one request. *)
Lemma send_post_request_frame env u hs payload st :
  let r := send_post_request env u hs payload st in
  (exists v, result_of r = Ok v)
  /\ svc (state_of r) = svc st
  /\ calls (state_of r)
     = (calls st ++ [Request POST u hs (Some payload) 100])%list
  /\ stdout (state_of r) = stdout st
  /\ fs (state_of r) = fs st.
Proof.
  unfold send_post_request. unfold_m. simpl.
  destruct (transport env _) as [| | e | resp]; simpl; eauto 6.
  destruct (status_code resp =? 200); simpl;
    destruct (json resp); simpl; eauto 6.
Qed.

Lemma send_get_request_frame env u hs st :
  let r := send_get_request env u hs st in
  svc (state_of r) = svc st
  /\ calls (state_of r) = (calls st ++ [Request GET u hs None 100])%list
  /\ stdout (state_of r) = stdout st
  /\ fs (state_of r) = fs st.
Proof.
  unfold send_get_request. unfold_m. simpl.
  destruct (transport env _) as [| | e | resp]; simpl; auto.
  destruct (status_code resp =? 200); simpl; auto.
  destruct (json resp); simpl; auto.
  destruct (json_error_is_request_exception env); simpl; auto.
Qed.

(** ** The credentials guard of [authenticate] *)

(** Without credentials [authenticate] stops at its guard. *)
Lemma authenticate_guard env st :
  empty_or_absent (username (svc st)) \/ empty_or_absent (password (svc st)) ->
  authenticate env st
  = (Ok (PBool false), logged st missing_credentials_record).
Proof.
  intros H.
  assert (E : negb (Py.truthy_opt (username (svc st)))
              || negb (Py.truthy_opt (password (svc st))) = true).
  { destruct H as [H | H]; rewrite (truthy_opt_false _ H); simpl;
      auto using orb_true_r. }
  unfold authenticate. unfold_m. simpl. rewrite E. reflexivity.
Qed.

(** C3: for every credential pair in which the username or the password is
    empty or absent, [authenticate] logs an error and returns [False]; no
    request is issued (the list of issued requests, like everything but the
    log, is as before). *)
Theorem authenticate_missing_credentials env st :
  empty_or_absent (username (svc st)) \/ empty_or_absent (password (svc st)) ->
  authenticate env st = (Ok (PBool false), logged st missing_credentials_record)
  /\ calls (state_of (authenticate env st)) = calls st.
Proof.
  intros H. rewrite (authenticate_guard env st H). split; reflexivity.
Qed.

Lemma authenticate_missing_credentials_witness :
  authenticate (mock_env (fun _ => json_response 200 "" (PDict [])))
               (fresh (Some "") None)
  = (Ok (PBool false), logged (fresh (Some "") None) missing_credentials_record)
  /\ calls (state_of (authenticate
                        (mock_env (fun _ => json_response 200 "" (PDict [])))
                        (fresh (Some "") None)))
     = calls (fresh (Some "") None).
Proof.
  apply (authenticate_missing_credentials
           (mock_env (fun _ => json_response 200 "" (PDict [])))
           (fresh (Some "") None)).
  left. right. reflexivity.
Defined.

(** ** The authentication guard of the domain operations *)

Lemma not_authenticated_absent self :
  auth_token self = PNone \/ api_key self = PNone ->
  not_authenticated self = true.
Proof.
  unfold not_authenticated.
  intros [-> | ->]; simpl; auto using orb_true_r.
Qed.

(** C4: each of the four domain operations, invoked while [auth_token] or
    [api_key] is absent, logs an error and returns [None]; no request is
    issued. *)
Theorem operations_require_authentication env st :
  auth_token (svc st) = PNone \/ api_key (svc st) = PNone ->
  let denied := (Ok PNone, logged st authentication_required_record) in
  get_list_of_users env st = denied
  /\ get_users_and_roles env st = denied
  /\ (forall id name bucket region,
         onboard_aws_account env id name bucket region st = denied)
  /\ (forall a, onboard_aws_account_msp env a st = denied)
  /\ calls (state_of denied) = calls st.
Proof.
  intros H. apply not_authenticated_absent in H.
  unfold get_list_of_users, get_users_and_roles, onboard_aws_account,
    onboard_aws_account_msp.
  unfold_m. simpl. rewrite H. simpl.
  repeat split; reflexivity.
Qed.

Lemma operations_require_authentication_witness :
  let env := mock_env (fun _ => json_response 200 "[]" (PList [])) in
  let st := fresh (Some "user") (Some "secret") in
  let denied := (Ok PNone, logged st authentication_required_record) in
  get_list_of_users env st = denied
  /\ get_users_and_roles env st = denied
  /\ (forall id name bucket region,
         onboard_aws_account env id name bucket region st = denied)
  /\ (forall a, onboard_aws_account_msp env a st = denied)
  /\ calls (state_of denied) = calls st.
Proof.
  apply (operations_require_authentication
           (mock_env (fun _ => json_response 200 "[]" (PList [])))
           (fresh (Some "user") (Some "secret"))).
  left. reflexivity.
Defined.

(** ** Non-200 answers *)

(** C6: when the exchange completes with a status other than 200, a POST
    returns the body (decoded as JSON when it decodes, the raw text
    otherwise) and a GET returns [None]; either way the status is logged
    and an error record is added. *)
Theorem non_200_post_returns_body_get_returns_none env st u hs payload resp :
  status_code resp <> 200 ->
  (transport env (Request POST u hs (Some payload) 100) = Completed resp ->
   send_post_request env u hs payload st
   = (Ok (body_of resp),
      State (svc st)
            (log st ++
               [LogRecord INFO "POST Request to %s - Status Code: %s"
                          [PStr u; PInt (status_code resp)];
                LogRecord ERROR "POST request failed: %s" [PStr (text resp)]])
            (calls st ++ [Request POST u hs (Some payload) 100])
            (stdout st) (fs st)))
  /\
  (transport env (Request GET u hs None 100) = Completed resp ->
   send_get_request env u hs st
   = (Ok PNone,
      State (svc st)
            (log st ++
               [LogRecord INFO "GET Request to %s - Status Code: %s"
                          [PStr u; PInt (status_code resp)];
                LogRecord INFO "POST Request to %s - Response Text: %s"
                          [PStr u; PStr (text resp)];
                LogRecord ERROR "GET request failed: %s" [PStr (text resp)]])
            (calls st ++ [Request GET u hs None 100])
            (stdout st) (fs st))).
Proof.
  intros Hs. apply Z.eqb_neq in Hs.
  split; intros Ht.
  - unfold send_post_request, body_of. unfold_m. simpl.
    rewrite Ht, Hs. simpl.
    rewrite <- !app_assoc. simpl.
    destruct (json resp); reflexivity.
  - unfold send_get_request. unfold_m. simpl.
    rewrite Ht, Hs. simpl.
    rewrite <- !app_assoc. simpl. reflexivity.
Qed.

Lemma non_200_post_returns_body_get_returns_none_witness :
  let env := mock_env (fun _ => text_response 500 "boom") in
  let st := fresh None None in
  result_of (send_post_request env "https://x/y" [] [] st) = Ok (PStr "boom")
  /\ result_of (send_get_request env "https://x/y" [] st) = Ok PNone.
Proof.
  cbv zeta.
  destruct (non_200_post_returns_body_get_returns_none
              (mock_env (fun _ => text_response 500 "boom"))
              (fresh None None) "https://x/y" [] []
              (Response 500 "boom" (DecodeError "Expecting value")))
    as [Hpost Hget].
  - simpl. lia.
  - split.
    + rewrite Hpost by reflexivity. reflexivity.
    + rewrite Hget by reflexivity. reflexivity.
Defined.

(** ** [authenticate] and the session *)

Lemma credentials_present_guard self :
  credentials_present self ->
  negb (Py.truthy_opt (username self)) || negb (Py.truthy_opt (password self))
  = false.
Proof. intros [-> ->]. reflexivity. Qed.

(** [authenticate] after its guard, in terms of the transport's answer. *)
Lemma authenticate_unfold env st :
  credentials_present (svc st) ->
  authenticate env st =
  (response <- send_post_request env BASE_AUTH_URL auth_headers
                                 (auth_payload (svc st)) ;;
   (if Py.truthy response then
      tok <- lift (Py.get response "Authorization") ;;
      set_auth_token tok ;;;
      key <- lift (Py.get response "apikey") ;;
      set_api_key key ;;;
      acc <- lift (Py.replace key "-1" "18745:0") ;;
      set_account_api_key acc
    else ret tt) ;;;
   self' <- get_self ;;
   ret (PBool (Py.truthy (auth_token self') && Py.truthy (api_key self')))) st.
Proof.
  intros H. unfold authenticate at 1.
  unfold bind at 1. unfold get_self at 1.
  rewrite (credentials_present_guard _ H). reflexivity.
Qed.

(** When the answer is falsy ([None] from a failed exchange, an empty body,
    an empty object, ...) nothing is stored. *)
Lemma authenticate_falsy_response env st v st1 :
  credentials_present (svc st) ->
  auth_call env st = (Ok v, st1) ->
  Py.truthy v = false ->
  authenticate env st
  = (Ok (PBool (Py.truthy (auth_token (svc st))
                && Py.truthy (api_key (svc st)))), st1)
  /\ svc st1 = svc st.
Proof.
  intros Hc Hcall Hv.
  pose proof (send_post_request_frame env BASE_AUTH_URL auth_headers
                (auth_payload (svc st)) st) as (_ & Hsvc & _).
  unfold auth_call in Hcall. rewrite Hcall in Hsvc. simpl in Hsvc.
  rewrite (authenticate_unfold _ _ Hc).
  unfold bind at 1. rewrite Hcall.
  rewrite Hv. unfold_m. simpl. rewrite Hsvc. auto.
Qed.

(** C10: when the transport call made by [authenticate] returns [None], the
    service object is left as it was, so [auth_token], [api_key] and
    [account_api_key] are unchanged (still absent on a service that was
    not authenticated before), and [authenticate] returns [False]. *)
Theorem authenticate_transport_null env st :
  credentials_present (svc st) ->
  result_of (auth_call env st) = Ok PNone ->
  svc (state_of (authenticate env st)) = svc st
  /\ (auth_token (svc st) = PNone \/ api_key (svc st) = PNone ->
      result_of (authenticate env st) = Ok (PBool false))
  /\ (auth_token (svc st) = PNone -> api_key (svc st) = PNone ->
      account_api_key (svc st) = PNone ->
      let self' := svc (state_of (authenticate env st)) in
      auth_token self' = PNone /\ api_key self' = PNone
      /\ account_api_key self' = PNone).
Proof.
  intros Hc Hr.
  destruct (auth_call env st) as [r st1] eqn:Hcall.
  unfold result_of in Hr. simpl in Hr. subst r.
  destruct (authenticate_falsy_response env st PNone st1 Hc Hcall eq_refl)
    as [Ha Hs].
  rewrite Ha. unfold result_of, state_of. simpl.
  split; [exact Hs|]. split.
  - intros [-> | ->]; simpl; [reflexivity|].
    rewrite andb_false_r. reflexivity.
  - intros H1 H2 H3. rewrite Hs. auto.
Qed.

Lemma authenticate_transport_null_witness :
  let env := mock_env (fun _ => Timeout) in
  let st := fresh (Some "user") (Some "secret") in
  svc (state_of (authenticate env st)) = svc st
  /\ result_of (authenticate env st) = Ok (PBool false).
Proof.
  destruct (authenticate_transport_null (mock_env (fun _ => Timeout))
              (fresh (Some "user") (Some "secret")))
    as (Hsvc & Hres & _).
  - split; reflexivity.
  - reflexivity.
  - split; [exact Hsvc | apply Hres; left; reflexivity].
Defined.

(** A completed POST hands back the body, whatever the status. *)
Lemma send_post_request_completed env u hs payload st resp :
  transport env (Request POST u hs (Some payload) 100) = Completed resp ->
  result_of (send_post_request env u hs payload st) = Ok (body_of resp).
Proof.
  intros Ht. unfold send_post_request, body_of. unfold_m. simpl.
  rewrite Ht. destruct (status_code resp =? 200); simpl;
    destruct (json resp); reflexivity.
Qed.

Lemma dict_get_nonempty d k v :
  Py.dict_get d k = Some v -> Py.truthy (PDict d) = true.
Proof. destruct d; simpl; [discriminate | reflexivity]. Qed.

(** A non-empty object with a string under ["apikey"]: all three attributes
    are stored. *)
Lemma authenticate_object_response env st d key st1 :
  credentials_present (svc st) ->
  auth_call env st = (Ok (PDict d), st1) ->
  Py.dict_get d "apikey" = Some (PStr key) ->
  authenticate env st
  = (Ok (PBool (Py.truthy (field d "Authorization") && Py.truthy (PStr key))),
     State (Service (username (svc st)) (password (svc st))
                    (field d "Authorization") (PStr key)
                    (PStr (derive_account_key key)) (debug (svc st)))
           (log st1) (calls st1) (stdout st1) (fs st1)).
Proof.
  intros Hc Hcall Hk.
  pose proof (send_post_request_frame env BASE_AUTH_URL auth_headers
                (auth_payload (svc st)) st) as (_ & Hsvc & _).
  unfold auth_call in Hcall. rewrite Hcall in Hsvc. simpl in Hsvc.
  rewrite (authenticate_unfold _ _ Hc).
  unfold bind at 1. rewrite Hcall.
  rewrite (dict_get_nonempty _ _ _ Hk).
  unfold field, derive_account_key. unfold_m. simpl.
  rewrite Hk. simpl. rewrite Hsvc. reflexivity.
Qed.

(** C7: when the answer of the auth endpoint is an object holding
    [Authorization] and an [apikey] string, the account-scoped key is that
    string with every ["-1"] replaced by ["18745:0"]; for the [apikey]
    ["key-1"] it is ["key18745:0"]. *)
Theorem authenticate_derives_account_key env st resp d tok key :
  credentials_present (svc st) ->
  transport env (auth_request (svc st)) = Completed resp ->
  json resp = Decoded (PDict d) ->
  Py.dict_get d "Authorization" = Some tok ->
  Py.dict_get d "apikey" = Some (PStr key) ->
  let self' := svc (state_of (authenticate env st)) in
  account_api_key self' = PStr (Py.str_replace key "-1" "18745:0")
  /\ (key = "key-1" -> account_api_key self' = PStr "key18745:0").
Proof.
  intros Hc Ht Hj Htok Hkey.
  pose proof (send_post_request_completed env BASE_AUTH_URL auth_headers
                (auth_payload (svc st)) st resp Ht) as Hres.
  unfold body_of in Hres. rewrite Hj in Hres.
  destruct (auth_call env st) as [r st1] eqn:Hcall.
  unfold auth_call in Hcall. rewrite Hcall in Hres.
  unfold result_of in Hres. simpl in Hres. subst r.
  rewrite (authenticate_object_response env st d key st1 Hc Hcall Hkey).
  unfold state_of. simpl. split; [reflexivity|].
  intros ->. reflexivity.
Qed.

Lemma authenticate_derives_account_key_witness :
  let d := [("Authorization", PStr "tok"); ("apikey", PStr "key-1")] in
  let env := mock_env (fun _ => json_response 200 "{}" (PDict d)) in
  let st := fresh (Some "user") (Some "secret") in
  account_api_key (svc (state_of (authenticate env st))) = PStr "key18745:0".
Proof.
  cbv zeta.
  apply (authenticate_derives_account_key
           (mock_env (fun _ => json_response 200 "{}"
                       (PDict [("Authorization", PStr "tok");
                               ("apikey", PStr "key-1")])))
           (fresh (Some "user") (Some "secret"))
           (Response 200 "{}"
              (Decoded (PDict [("Authorization", PStr "tok");
                               ("apikey", PStr "key-1")])))
           [("Authorization", PStr "tok"); ("apikey", PStr "key-1")]
           (PStr "tok") "key-1").
  - split; reflexivity.
  - reflexivity.
  - reflexivity.
  - reflexivity.
  - reflexivity.
  - reflexivity.
Defined.

(** ** When [authenticate] returns [True] *)

Lemma init_consistent user pass dbg : consistent (init user pass dbg).
Proof. right. repeat split. Qed.

Lemma credentials_present_dec self :
  credentials_present self
  \/ (empty_or_absent (username self) \/ empty_or_absent (password self)).
Proof.
  unfold credentials_present, empty_or_absent.
  destruct (username self) as [[|c u]|], (password self) as [[|c' p]|];
    simpl; auto.
Qed.

Lemma credentials_present_not_missing self :
  credentials_present self ->
  ~ (empty_or_absent (username self) \/ empty_or_absent (password self)).
Proof.
  intros [Hu Hp] [H | H]; apply truthy_opt_false in H; congruence.
Qed.

(** [authenticate] never writes the credentials. *)
Lemma authenticate_credentials_unchanged env st r st' :
  authenticate env st = (r, st') ->
  username (svc st') = username (svc st)
  /\ password (svc st') = password (svc st).
Proof.
  unfold authenticate. unfold bind at 1. unfold get_self at 1.
  destruct (negb _ || negb _).
  - unfold_m. simpl. intros [= <- <-]. simpl. auto.
  - pose proof (send_post_request_frame env BASE_AUTH_URL auth_headers
                  (auth_payload (svc st)) st) as ([v Hv] & Hsvc & _).
    unfold bind at 1.
    destruct (send_post_request _ _ _ _ st) as [r1 st1].
    unfold result_of, state_of in *. simpl in *. subst r1.
    destruct v as [| b | z | f | s | l | d]; unfold_m; simpl;
      try (intros [= <- <-]; simpl; rewrite Hsvc; auto; fail).
    + destruct b; simpl; intros [= <- <-]; simpl; rewrite Hsvc; auto.
    + destruct (z =? 0); simpl; intros [= <- <-]; simpl; rewrite Hsvc; auto.
    + destruct f; simpl; intros [= <- <-]; simpl; rewrite Hsvc; auto.
    + destruct (s =? "")%string; simpl; intros [= <- <-]; simpl;
        rewrite Hsvc; auto.
    + destruct l; simpl; intros [= <- <-]; simpl; rewrite Hsvc; auto.
    + remember (Py.dict_get d "apikey") as key.
      remember (Py.dict_get d "Authorization") as tok.
      destruct d as [|kv d]; [|destruct key as [[]|]]; simpl;
        intros [= <- <-]; simpl; rewrite Hsvc; auto.
Qed.

Lemma authenticate_consistent env st :
  consistent (svc st) -> consistent (svc (state_of (authenticate env st))).
Proof.
  intros Hc.
  destruct (credentials_present_dec (svc st)) as [Hp | Hm].
  - left. destruct (authenticate env st) as [r st'] eqn:Ha.
    destruct (authenticate_credentials_unchanged env st r st' Ha) as [Hu Hpw].
    unfold credentials_present, state_of in *. simpl.
    rewrite Hu, Hpw. exact Hp.
  - rewrite (authenticate_guard env st Hm). exact Hc.
Qed.

(** C1, as stated, fails: with an empty [Authorization] in the answer both
    tokens are present after the call (the empty string and ["key-1"]) and
    [authenticate] returns [False]. *)
Lemma returns_true_iff_tokens_present_counterexample :
  ~ returns_true_iff_tokens_present empty_token_env
      (fresh (Some "user") (Some "secret")).
Proof.
  unfold returns_true_iff_tokens_present.
  intros [b [Hr Hiff]].
  vm_compute in Hr. injection Hr as <-.
  destruct Hiff as [_ Hback].
  assert (H : false = true); [|discriminate H].
  apply Hback. vm_compute. split; discriminate.
Qed.

(** C1, amended: in every case in which credentials are missing, or the
    transport's answer is falsy ([None] included), or the answer is an
    object with a string [apikey] (an object without [Authorization]
    included), [authenticate] returns a boolean, and that boolean is [True]
    exactly when [auth_token] and [api_key] are both truthy (present and
    not empty) after the call. *)
Theorem authenticate_true_iff_tokens_truthy env st :
  consistent (svc st) ->
  authenticate_answer_handled env st ->
  let r := authenticate env st in
  exists b,
    result_of r = Ok (PBool b)
    /\ (b = true <->
        Py.truthy (auth_token (svc (state_of r))) = true
        /\ Py.truthy (api_key (svc (state_of r))) = true).
Proof.
  intros Hcons Hcase. cbv zeta.
  destruct (credentials_present_dec (svc st)) as [Hp | Hm].
  - destruct Hcase as [Hm | (v & Hv & Hcase)];
      [destruct (credentials_present_not_missing _ Hp Hm)|].
    destruct (auth_call env st) as [r1 st1] eqn:Hcall.
    unfold result_of in Hv. simpl in Hv. subst r1.
    destruct Hcase as [Hf | (d & key & -> & Hk)].
    + destruct (authenticate_falsy_response env st v st1 Hp Hcall Hf)
        as [Ha Hs].
      rewrite Ha. unfold result_of, state_of. simpl. rewrite Hs.
      eexists. split; [reflexivity|]. apply andb_true_iff.
    + rewrite (authenticate_object_response env st d key st1 Hp Hcall Hk).
      unfold result_of, state_of. simpl.
      eexists. split; [reflexivity|]. apply andb_true_iff.
  - rewrite (authenticate_guard env st Hm).
    unfold result_of, state_of. simpl.
    exists false. split; [reflexivity|].
    destruct Hcons as [Hp | (Ht & _)];
      [destruct (credentials_present_not_missing _ Hp Hm)|].
    rewrite Ht. simpl. split; [discriminate | intros [H _]; discriminate H].
Qed.

Lemma authenticate_true_iff_tokens_truthy_witness :
  let r := authenticate empty_token_env (fresh (Some "user") (Some "secret")) in
  exists b,
    result_of r = Ok (PBool b)
    /\ (b = true <->
        Py.truthy (auth_token (svc (state_of r))) = true
        /\ Py.truthy (api_key (svc (state_of r))) = true).
Proof.
  apply (authenticate_true_iff_tokens_truthy empty_token_env
           (fresh (Some "user") (Some "secret"))).
  - left. split; reflexivity.
  - right. eexists. split; [reflexivity|].
    right. eexists. exists "key-1". split; reflexivity.
Defined.

(** ** Onboarding *)

Lemma authenticated_guard self :
  authenticated self -> not_authenticated self = false.
Proof. unfold not_authenticated. intros [-> ->]. reflexivity. Qed.

(** C8: an authenticated call [onboard_aws_account(account_id,
    account_name)] issues one POST whose payload has ["cur-" + account_id]
    under [bucketName] and ["us-east-1"] under [bucketRegion]. *)
Theorem onboard_aws_account_default_bucket env st id name :
  authenticated (svc st) ->
  exists payload,
    calls (state_of (onboard_aws_account_defaults env (Some id) name st))
    = (calls st ++ [Request POST (onboarding_url (Some id))
                            (onboarding_headers (svc st))
                            (Some payload) 100])%list
    /\ Py.dict_get payload "bucketName" = Some (PStr ("cur-" ++ id))
    /\ Py.dict_get payload "bucketRegion" = Some (PStr "us-east-1").
Proof.
  intros Ha. apply authenticated_guard in Ha.
  unfold onboard_aws_account_defaults, onboard_aws_account.
  unfold bind at 1. unfold get_self at 1. rewrite Ha.
  eexists. split; [|split].
  - apply send_post_request_frame.
  - reflexivity.
  - reflexivity.
Qed.

Lemma onboard_aws_account_default_bucket_witness :
  exists payload,
    calls (state_of (onboard_aws_account_defaults
                       (mock_env (fun _ => json_response 200 "{}" (PDict [])))
                       (Some "123") (Some "Acme") authenticated_state))
    = (calls authenticated_state
         ++ [Request POST (onboarding_url (Some "123"))
                     (onboarding_headers (svc authenticated_state))
                     (Some payload) 100])%list
    /\ Py.dict_get payload "bucketName" = Some (PStr ("cur-" ++ "123"))
    /\ Py.dict_get payload "bucketRegion" = Some (PStr "us-east-1").
Proof.
  apply (onboard_aws_account_default_bucket
           (mock_env (fun _ => json_response 200 "{}" (PDict [])))
           authenticated_state "123" (Some "Acme")).
  split; reflexivity.
Defined.

(** ** MSP onboarding *)

(** Saving the script issues no request and leaves the service alone. *)
Lemma save_script_frame env a script st :
  let r := save_script env a script st in
  svc (state_of r) = svc st /\ calls (state_of r) = calls st.
Proof.
  unfold save_script. unfold_m. simpl.
  destruct (makedirs env _); simpl; auto.
  destruct (write_file env _ _); simpl; auto.
  destruct (input env _) as [line|]; simpl; auto.
  destruct (_ =? "y")%string; simpl; auto.
  destruct (open_folder env _ _); simpl; auto.
Qed.

(** Inversion of a sequenced computation. *)
Lemma bind_inv {A B} (m : M A) (k : A -> M B) st r st' :
  bind m k st = (r, st') ->
  (exists a st1, m st = (Ok a, st1) /\ k a st1 = (r, st'))
  \/ (exists e, m st = (Raise e, st') /\ r = Raise e).
Proof.
  unfold bind. destruct (m st) as [[a|e] st1]; intros H.
  - left. eauto.
  - right. injection H as <- <-. eauto.
Qed.

Lemma lift_inv {A} (x : exn + A) st r st' :
  lift x st = (r, st') ->
  st' = st /\ match x with inl e => r = Raise e | inr a => r = Ok a end.
Proof. destruct x; unfold lift, raise, ret; intros [= <- <-]; auto. Qed.

Lemma msp_payload_inv a st r st' :
  msp_payload a st = (r, st') ->
  st' = st
  /\ match r with
     | Ok p => exists ty sm aa,
         Py.int (account_type a) = inr ty
         /\ Py.int (is_customer_self_managed a) = inr sm
         /\ Py.int (auto_assign_linked_accounts a) = inr aa
         /\ p = msp_payload_literal a ty sm aa
     | Raise e => True
     end.
Proof.
  unfold msp_payload, lift, bind, raise, ret.
  destruct (Py.int (account_type a)) as [e|ty]; [intros [= <- <-]; auto|].
  destruct (Py.int (is_customer_self_managed a)) as [e|sm];
    [intros [= <- <-]; auto|].
  destruct (Py.int (auto_assign_linked_accounts a)) as [e|aa];
    intros [= <- <-]; split; auto.
  exists ty, sm, aa. auto.
Qed.

(** The shape of every run of [onboard_aws_account_msp]: a returned value
    is always [None]; and either nothing was issued, or the service was
    authenticated, the three coercions succeeded and exactly one request
    went out. *)
Lemma onboard_aws_account_msp_shape env a st r st' :
  onboard_aws_account_msp env a st = (r, st') ->
  (forall v, r = Ok v -> v = PNone)
  /\ (calls st' = calls st
      \/ exists ty sm aa,
           Py.int (account_type a) = inr ty
           /\ Py.int (is_customer_self_managed a) = inr sm
           /\ Py.int (auto_assign_linked_accounts a) = inr aa
           /\ authenticated (svc st)
           /\ calls st' = (calls st ++ [msp_request (svc st) a ty sm aa])%list).
Proof.
  unfold onboard_aws_account_msp. unfold bind at 1. unfold get_self at 1.
  destruct (not_authenticated (svc st)) eqn:Hna.
  { unfold_m. intros [= <- <-]. simpl.
    split; [intros v [= <-]; reflexivity | left; reflexivity]. }
  assert (Hauth : authenticated (svc st)).
  { unfold not_authenticated in Hna. apply orb_false_iff in Hna.
    destruct Hna as [H1 H2]. apply negb_false_iff in H1, H2.
    split; assumption. }
  intros H.
  apply bind_inv in H as [(p & s1 & Hp & H) | (e & Hp & ->)];
    apply msp_payload_inv in Hp as [-> Hp];
    [|split; [intros v [=] | left; reflexivity]].
  destruct Hp as (ty & sm & aa & Hty & Hsm & Haa & ->).
  apply bind_inv in H as [(u & s2 & Hpr & H) | (e & Hpr & ->)];
    [|discriminate Hpr].
  unfold print in Hpr. injection Hpr as _ <-.
  match type of H with
  | bind (send_post_request ?e ?u ?h ?p) _ ?s0 = _ =>
      pose proof (send_post_request_frame e u h p s0)
        as ([resp Hresp] & _ & Hcalls & _)
  end.
  cbv zeta in Hresp, Hcalls. unfold result_of, state_of in Hresp, Hcalls.
  apply bind_inv in H as [(v & s3 & Hsend & H) | (e & Hsend & ->)];
    rewrite Hsend in Hresp, Hcalls; simpl in Hresp, Hcalls;
    [|discriminate Hresp].
  assert (Hlast : (forall w, r = Ok w -> w = PNone) /\ calls st' = calls s3).
  { apply bind_inv in H as [(u1 & s4 & Htail & H) | (e & Htail & ->)].
    - unfold ret in H. injection H as <- <-.
      split; [intros w [= <-]; reflexivity|].
      destruct v; try (unfold ret in Htail; injection Htail as _ <-;
                       reflexivity).
      destruct (Py.truthy (PStr s)).
      + pose proof (save_script_frame env a s s3) as [_ Hc].
        unfold state_of in Hc. rewrite Htail in Hc. exact Hc.
      + unfold ret in Htail. injection Htail as _ <-. reflexivity.
    - split; [intros w [=]|].
      destruct v; try discriminate Htail.
      destruct (Py.truthy (PStr s)); [|discriminate Htail].
      pose proof (save_script_frame env a s s3) as [_ Hc].
      unfold state_of in Hc. rewrite Htail in Hc. exact Hc. }
  destruct Hlast as [Hv Hc]. split; [exact Hv|].
  right. exists ty, sm, aa.
  split; [exact Hty|]. split; [exact Hsm|]. split; [exact Haa|].
  split; [exact Hauth|].
  rewrite Hc, Hcalls. reflexivity.
Qed.

Lemma given_fields_in a k :
  In (k, true) (field_table a) -> In k (given_fields a).
Proof.
  intros H. unfold given_fields.
  apply in_map_iff. exists (k, true). split; [reflexivity|].
  apply filter_In. split; [exact H | reflexivity].
Qed.

Lemma remove_none_in p k v :
  In (k, v) (remove_none p) <-> In (k, v) p /\ v <> PNone.
Proof.
  unfold remove_none. rewrite filter_In. simpl.
  split; intros [H1 H2]; split; auto.
  - intros ->. discriminate.
  - destruct v; try reflexivity. congruence.
Qed.

Lemma or_none_given o : Py.or_none o <> PNone -> is_some o = true.
Proof. destruct o; simpl; congruence. Qed.

Lemma of_opt_given o : Py.of_opt o <> PNone -> is_some o = true.
Proof. destruct o; simpl; congruence. Qed.

Lemma int_given v z : Py.int v = inr z -> Py.is_not_none v = true.
Proof. destruct v; simpl; congruence. Qed.

(** C5, as stated, fails: with no bucket name given, the payload that goes
    out has a [bucketName] all the same. *)
Lemma payload_keys_within_given_counterexample :
  ~ payload_keys_within_given onboarding_ok_env msp_args_no_bucket
      authenticated_state.
Proof.
  intros H.
  assert (Hin : In "bucketName" (given_fields msp_args_no_bucket)).
  { eapply H.
    - eexists. split; [vm_compute; reflexivity | reflexivity].
    - vm_compute. auto. }
  vm_compute in Hin.
  repeat (destruct Hin as [Hin | Hin]; [discriminate Hin|]).
  exact Hin.
Qed.

(** A transmitted payload is the literal without its [None] entries. *)
Lemma transmits_inv env a st p :
  transmits env a st p ->
  exists ty sm aa,
    Py.int (account_type a) = inr ty
    /\ Py.int (is_customer_self_managed a) = inr sm
    /\ Py.int (auto_assign_linked_accounts a) = inr aa
    /\ p = remove_none (msp_payload_literal a ty sm aa).
Proof.
  intros (rq & Hcalls & Hp).
  destruct (onboard_aws_account_msp env a st) as [r st'] eqn:Hrun.
  unfold state_of in Hcalls. simpl in Hcalls.
  destruct (onboard_aws_account_msp_shape env a st r st' Hrun)
    as [_ [Hsame | (ty & sm & aa & Hty & Hsm & Haa & _ & Hone)]].
  - rewrite Hsame in Hcalls. apply (f_equal (@List.length request)) in Hcalls.
    rewrite length_app in Hcalls. simpl in Hcalls. lia.
  - rewrite Hone in Hcalls. apply app_inv_head in Hcalls.
    injection Hcalls as <-. simpl in Hp. injection Hp as <-.
    exists ty, sm, aa. auto.
Qed.

(** C5, amended: the keys of a transmitted payload are among the fields
    given non-null values together with [bucketName] and [bucketRegion],
    which are always sent (with their defaults when not given); no entry of
    a transmitted payload is [None]. *)
Theorem msp_payload_omits_null env a st p :
  transmits env a st p ->
  incl (Py.dict_keys p) (given_fields a ++ ["bucketName"; "bucketRegion"])
  /\ (forall k v, In (k, v) p -> v <> PNone)
  /\ Py.dict_get p "bucketName"
     = Some (bucket_name_or_default (bucket_name a) (account_id a))
  /\ Py.dict_get p "bucketRegion"
     = Some (if Py.truthy_opt (bucket_region a)
             then Py.of_opt (bucket_region a) else PStr "us-east-1").
Proof.
  intros Ht.
  destruct (transmits_inv env a st p Ht) as (ty & sm & aa & Hty & Hsm & Haa & ->).
  split; [|split; [|split]].
  - intros k Hk. apply in_map_iff in Hk as [[k' v] [Hfst Hin]].
    simpl in Hfst. subst k'.
    apply remove_none_in in Hin as [Hin Hv].
    apply in_or_app.
    unfold msp_payload_literal in Hin. simpl in Hin.
    repeat (destruct Hin as [Hin | Hin];
            [injection Hin as <- <-|]); try contradiction.
    + left. apply given_fields_in. unfold field_table.
      rewrite (of_opt_given _ Hv). simpl. auto.
    + right. simpl. auto.
    + right. simpl. auto.
    + left. apply given_fields_in. unfold field_table.
      rewrite (int_given _ _ Hty). simpl. auto.
    + left. apply given_fields_in. unfold field_table.
      rewrite (or_none_given _ Hv). simpl. auto 6.
    + left. apply given_fields_in. unfold field_table.
      rewrite (or_none_given _ Hv). simpl. auto 7.
    + left. apply given_fields_in. unfold field_table.
      rewrite (int_given _ _ Hsm). simpl. auto 8.
    + left. apply given_fields_in. unfold field_table.
      rewrite (or_none_given _ Hv). simpl. auto 9.
    + left. apply given_fields_in. unfold field_table.
      rewrite (int_given _ _ Haa). simpl. auto 10.
    + left. apply given_fields_in. unfold field_table.
      rewrite (or_none_given _ Hv). simpl. auto 11.
  - intros k v Hin. apply remove_none_in in Hin. tauto.
  - unfold msp_payload_literal, remove_none, bucket_name_or_default.
    destruct (account_name a); destruct (bucket_name a) as [[|c b]|];
      reflexivity.
  - unfold msp_payload_literal, remove_none, bucket_name_or_default.
    destruct (account_name a); destruct (bucket_name a) as [[|c b]|];
      destruct (bucket_region a) as [[|c' b']|]; reflexivity.
Qed.

Lemma msp_payload_omits_null_witness :
  let p := [("accountName", PStr "Acme"); ("bucketName", PStr "cur-123");
            ("bucketRegion", PStr "us-east-1"); ("accountType", PStr "dedicated");
            ("resellerCustomerName", PStr "Reseller");
            ("isCustomerSelfManaged", PInt 0);
            ("autoAssignLinkedAccounts", PInt 1)] in
  incl (Py.dict_keys p)
       (given_fields msp_args_no_bucket ++ ["bucketName"; "bucketRegion"])
  /\ (forall k v, In (k, v) p -> v <> PNone)
  /\ Py.dict_get p "bucketName" = Some (PStr "cur-123")
  /\ Py.dict_get p "bucketRegion" = Some (PStr "us-east-1").
Proof.
  apply (msp_payload_omits_null onboarding_ok_env msp_args_no_bucket
           authenticated_state).
  eexists. split; [vm_compute; reflexivity | reflexivity].
Defined.

(** ** Exceptions that leave the service *)

(** Outside the handled cases [authenticate] raises: a truthy answer that
    is not an object with a string [apikey] ends in an [AttributeError]. *)
Lemma authenticate_raises env st v st1 :
  credentials_present (svc st) ->
  auth_call env st = (Ok v, st1) ->
  Py.truthy v = true ->
  (forall d key, v = PDict d -> Py.dict_get d "apikey" <> Some (PStr key)) ->
  exists msg, result_of (authenticate env st) = Raise (AttributeError msg).
Proof.
  intros Hc Hcall Hv Hno.
  rewrite (authenticate_unfold _ _ Hc).
  unfold auth_call in Hcall.
  unfold bind at 1. rewrite Hcall. rewrite Hv.
  destruct v as [| b | z | f | s | l | d];
    try (unfold_m; simpl; eauto; fail).
  specialize (Hno d).
  unfold Py.get.
  destruct (Py.dict_get d "apikey") as [[| b | z | f | s | l | d']|];
    try (unfold_m; simpl; eauto; fail).
  destruct (Hno s eq_refl eq_refl).
Qed.

(** C2, at its failing inputs: [authenticate] raises [AttributeError] when
    the answer has no [apikey] and when it is an error page, and
    [onboard_aws_account_msp] raises [TypeError] when a flag is [None]. *)
Theorem operations_raise_across_the_boundary :
  result_of (authenticate no_apikey_env (fresh (Some "user") (Some "secret")))
  = Raise (AttributeError "'NoneType' object has no attribute 'replace'")
  /\ result_of (authenticate error_page_env
                             (fresh (Some "user") (Some "secret")))
     = Raise (AttributeError "'str' object has no attribute 'get'")
  /\ result_of (onboard_aws_account_msp onboarding_ok_env msp_args_no_flags
                                        authenticated_state)
     = Raise (TypeError "int() argument must be a string, a bytes-like object or a real number, not 'NoneType'").
Proof. repeat split; vm_compute; reflexivity. Qed.

(** Whenever [onboard_aws_account_msp] returns, it returns [None]. *)
Lemma onboard_aws_account_msp_returns_none env a st v :
  result_of (onboard_aws_account_msp env a st) = Ok v -> v = PNone.
Proof.
  destruct (onboard_aws_account_msp env a st) as [r st'] eqn:Hrun.
  destruct (onboard_aws_account_msp_shape env a st r st' Hrun) as [Hv _].
  exact (Hv v).
Qed.

(** With the three coercions succeeding and structured JSON (anything but a
    string) coming back, the method does return, and returns [None]. *)
Lemma onboard_aws_account_msp_json_returns_none env a st ty sm aa resp v :
  authenticated (svc st) ->
  Py.int (account_type a) = inr ty ->
  Py.int (is_customer_self_managed a) = inr sm ->
  Py.int (auto_assign_linked_accounts a) = inr aa ->
  transport env (msp_request (svc st) a ty sm aa) = Completed resp ->
  json resp = Decoded v ->
  Py.is_str v = false ->
  result_of (onboard_aws_account_msp env a st) = Ok PNone.
Proof.
  intros Ha Hty Hsm Haa Ht Hj Hs.
  apply authenticated_guard in Ha.
  unfold onboard_aws_account_msp, msp_payload.
  unfold bind at 1. unfold get_self at 1. rewrite Ha, Hty, Hsm, Haa.
  unfold lift, print, bind, ret. cbv beta iota.
  match goal with
  | |- context [send_post_request ?e ?u ?h ?p ?s0] =>
      pose proof (send_post_request_completed e u h p s0 resp Ht) as Hres;
      destruct (send_post_request e u h p s0) as [r1 s1]
  end.
  unfold result_of in Hres. simpl in Hres. subst r1.
  unfold body_of. rewrite Hj.
  destruct v; try discriminate Hs; reflexivity.
Qed.

(** C9, at its failing input: called with its defaults, the method does
    not return [None]; it raises, on [int("dedicated")], before any
    request is issued. *)
Theorem onboard_aws_account_msp_defaults_raise :
  onboard_aws_account_msp onboarding_ok_env
    (msp_defaults (Some "123") (Some "Acme") None) authenticated_state
  = (Raise (ValueError "invalid literal for int() with base 10"),
     authenticated_state).
Proof. vm_compute. reflexivity. Qed.

(** ** [str.replace] and [int] *)

Lemma replace_from_skip old new k s :
  Py.replace_from old new k s = Py.replace_from old new O (Py.drop k s).
Proof.
  revert s. induction k as [|k IH]; intros s; [reflexivity|].
  destruct s as [|c s]; [reflexivity|]. simpl Py.drop. rewrite <- IH.
  reflexivity.
Qed.

(** At an occurrence of [old], [new] is written and the scan goes on after
    the occurrence. *)
Lemma str_replace_match s old new :
  old <> "" -> prefix old s = true ->
  Py.str_replace s old new
  = new ++ Py.str_replace (Py.drop (String.length old) s) old new.
Proof.
  intros Hold Hp. destruct old as [|o old]; [congruence|].
  unfold Py.str_replace.
  destruct s as [|c s]; [discriminate Hp|].
  simpl Py.replace_from. simpl in Hp. rewrite Hp.
  rewrite replace_from_skip. reflexivity.
Qed.

(** Elsewhere the character is kept. *)
Lemma str_replace_keep c s old new :
  old <> "" -> prefix old (String c s) = false ->
  Py.str_replace (String c s) old new = String c (Py.str_replace s old new).
Proof.
  intros Hold Hp. destruct old as [|o old]; [congruence|].
  unfold Py.str_replace. simpl Py.replace_from. simpl in Hp. rewrite Hp.
  reflexivity.
Qed.

Lemma str_replace_empty old new :
  old <> "" -> Py.str_replace "" old new = "".
Proof. destruct old; [congruence | reflexivity]. Qed.

Example derive_account_key_example :
  derive_account_key "key-1" = "key18745:0".
Proof. reflexivity. Qed.

Example derive_account_key_all_occurrences :
  derive_account_key "a-1b-11-" = "a18745:0b18745:01-".
Proof. reflexivity. Qed.

Example derive_account_key_no_occurrence :
  derive_account_key "plain-key" = "plain-key".
Proof. reflexivity. Qed.

Example str_replace_empty_old : Py.str_replace "ab" "" "-" = "-a-b-".
Proof. reflexivity. Qed.

Example int_of_menu_input :
  Py.int (PStr "1") = inr 1 /\ Py.int (PStr "0") = inr 0.
Proof. split; reflexivity. Qed.

Example int_of_padded_literal :
  Py.int (PStr " -1_000 ") = inr (-1000) /\ Py.int (PStr "+07") = inr 7.
Proof. split; reflexivity. Qed.

Example int_of_bad_literal :
  Py.int_of_string "dedicated" = None /\ Py.int_of_string "1__0" = None
  /\ Py.int_of_string "_1" = None /\ Py.int_of_string "" = None
  /\ Py.int_of_string "- 1" = None.
Proof. repeat split; reflexivity. Qed.

Example int_of_float_truncates :
  Py.int (PFloat (S754_finite true 5 (-1))) = inr (-2).
Proof. reflexivity. Qed.

Example strip_lower_example : Py.lower (Py.strip "  Y ") = "y".
Proof. reflexivity. Qed.


(** ** The transport, beyond non-200 answers *)

(** What a POST returns is decided by the transport's outcome alone. *)
Lemma send_post_request_answer env u hs payload st :
  result_of (send_post_request env u hs payload st)
  = Ok (answer_of (transport env (Request POST u hs (Some payload) 100))).
Proof.
  unfold send_post_request, answer_of, body_of. unfold_m. simpl.
  destruct (transport env _) as [| | e | resp]; simpl; try reflexivity.
  destruct (status_code resp =? 200); simpl; destruct (json resp); reflexivity.
Qed.


(** X2: when the exchange fails at transport level (time-out, connection
    error, any other request exception), POST and GET both return [None]
    and add exactly one record to the log, an [ERROR]. *)
Theorem transport_failure_returns_none env u hs payload st :
  (transport_failed (transport env (Request POST u hs (Some payload) 100)) ->
   exists r,
     send_post_request env u hs payload st
     = (Ok PNone,
        State (svc st) (log st ++ [r])
              (calls st ++ [Request POST u hs (Some payload) 100])
              (stdout st) (fs st))
     /\ lvl r = ERROR)
  /\
  (transport_failed (transport env (Request GET u hs None 100)) ->
   exists r,
     send_get_request env u hs st
     = (Ok PNone,
        State (svc st) (log st ++ [r])
              (calls st ++ [Request GET u hs None 100])
              (stdout st) (fs st))
     /\ lvl r = ERROR).
Proof.
  split; intros H.
  - unfold send_post_request. unfold_m. simpl.
    destruct (transport env _) as [| | e | resp]; simpl in *;
      [| | |contradiction]; eexists; split; reflexivity.
  - unfold send_get_request. unfold_m. simpl.
    destruct (transport env _) as [| | e | resp]; simpl in *;
      [| | |contradiction]; eexists; split; reflexivity.
Qed.

Lemma transport_failure_returns_none_witness :
  let env := mock_env (fun _ => ConnectionError) in
  let st := fresh None None in
  (exists r,
     send_post_request env "https://x/y" [] [] st
     = (Ok PNone,
        State (svc st) (log st ++ [r])
              (calls st ++ [Request POST "https://x/y" [] (Some []) 100])
              (stdout st) (fs st))
     /\ lvl r = ERROR)
  /\
  (exists r,
     send_get_request env "https://x/y" [] st
     = (Ok PNone,
        State (svc st) (log st ++ [r])
              (calls st ++ [Request GET "https://x/y" [] None 100])
              (stdout st) (fs st))
     /\ lvl r = ERROR).
Proof.
  cbv zeta.
  destruct (transport_failure_returns_none
              (mock_env (fun _ => ConnectionError)) "https://x/y" [] []
              (fresh None None)) as [Hpost Hget].
  split; [apply Hpost | apply Hget]; exact I.
Defined.

(** X3: [send_get_request] hands back a value other than [None] only from
    an exchange that completed with status 200 and whose body decoded to
    that value. *)
Theorem send_get_request_value env u hs st v :
  result_of (send_get_request env u hs st) = Ok v ->
  v <> PNone ->
  exists resp,
    transport env (Request GET u hs None 100) = Completed resp
    /\ status_code resp = 200
    /\ json resp = Decoded v.
Proof.
  unfold send_get_request. unfold_m. simpl.
  destruct (transport env _) as [| | e | resp]; simpl;
    try (intros [= <-] Hv; congruence).
  destruct (status_code resp =? 200) eqn:Hs; simpl;
    [|intros [= <-] Hv; congruence].
  apply Z.eqb_eq in Hs.
  destruct (json resp) as [w|msg] eqn:Hj; simpl.
  - intros [= <-] _. exists resp. auto.
  - destruct (json_error_is_request_exception env); simpl;
      [intros [= <-] Hv; congruence | discriminate].
Qed.

Lemma send_get_request_value_witness :
  exists resp,
    transport (mock_env (fun _ => json_response 200 "[1]" (PList [PInt 1])))
              (Request GET "https://x/y" [] None 100) = Completed resp
    /\ status_code resp = 200
    /\ json resp = Decoded (PList [PInt 1]).
Proof.
  apply (send_get_request_value
           (mock_env (fun _ => json_response 200 "[1]" (PList [PInt 1])))
           "https://x/y" [] (fresh None None) (PList [PInt 1])).
  - reflexivity.
  - discriminate.
Defined.


(** X5: on status 200 nothing is logged as an error: a POST returns the
    body after one [INFO] record, a GET whose body decodes returns the
    decoded value after its two [INFO] records. *)
Theorem status_200_is_not_an_error env st u hs payload resp :
  status_code resp = 200 ->
  (transport env (Request POST u hs (Some payload) 100) = Completed resp ->
   send_post_request env u hs payload st
   = (Ok (body_of resp),
      State (svc st)
            (log st ++
               [LogRecord INFO "POST Request to %s - Status Code: %s"
                          [PStr u; PInt 200]])
            (calls st ++ [Request POST u hs (Some payload) 100])
            (stdout st) (fs st)))
  /\
  (forall v,
   transport env (Request GET u hs None 100) = Completed resp ->
   json resp = Decoded v ->
   send_get_request env u hs st
   = (Ok v,
      State (svc st)
            (log st ++
               [LogRecord INFO "GET Request to %s - Status Code: %s"
                          [PStr u; PInt 200];
                LogRecord INFO "POST Request to %s - Response Text: %s"
                          [PStr u; PStr (text resp)]])
            (calls st ++ [Request GET u hs None 100])
            (stdout st) (fs st))).
Proof.
  intros Hs. split.
  - intros Ht. unfold send_post_request, body_of. unfold_m. simpl.
    rewrite Ht, Hs. simpl. destruct (json resp); reflexivity.
  - intros v Ht Hj. unfold send_get_request. unfold_m. simpl.
    rewrite Ht, Hs, Hj. simpl. rewrite <- app_assoc. reflexivity.
Qed.

Lemma status_200_is_not_an_error_witness :
  let env := mock_env (fun _ => json_response 200 "[]" (PList [])) in
  result_of (send_post_request env "https://x/y" [] [] (fresh None None))
  = Ok (PList [])
  /\ result_of (send_get_request env "https://x/y" [] (fresh None None))
     = Ok (PList []).
Proof.
  cbv zeta.
  destruct (status_200_is_not_an_error
              (mock_env (fun _ => json_response 200 "[]" (PList [])))
              (fresh None None) "https://x/y" [] []
              (Response 200 "[]" (Decoded (PList [])))) as [Hpost Hget].
  - reflexivity.
  - split.
    + rewrite Hpost by reflexivity. reflexivity.
    + rewrite (Hget (PList [])) by reflexivity. reflexivity.
Defined.

(** ** The session, beyond the first call *)

(** The call into the transport, by the transport's outcome. *)
Lemma auth_call_answer env st :
  exists st1,
    auth_call env st
    = (Ok (answer_of (transport env (auth_request (svc st)))), st1)
    /\ svc st1 = svc st
    /\ calls st1 = (calls st ++ [auth_request (svc st)])%list
    /\ stdout st1 = stdout st /\ fs st1 = fs st.
Proof.
  unfold auth_call.
  pose proof (send_post_request_answer env BASE_AUTH_URL auth_headers
                (auth_payload (svc st)) st) as Ha.
  pose proof (send_post_request_frame env BASE_AUTH_URL auth_headers
                (auth_payload (svc st)) st) as (_ & H1 & H2 & H3 & H4).
  destruct (send_post_request _ _ _ _ st) as [r st1].
  unfold result_of, state_of in *. simpl in *. subst r.
  exists st1. auto.
Qed.

(** An object whose [apikey] is not a string: the first two attributes are
    already written when [replace] fails. *)
Lemma authenticate_object_without_key env st d st1 :
  credentials_present (svc st) ->
  auth_call env st = (Ok (PDict d), st1) ->
  d <> [] ->
  (forall key, Py.dict_get d "apikey" <> Some (PStr key)) ->
  exists msg,
    authenticate env st
    = (Raise (AttributeError msg),
       State (Service (username (svc st)) (password (svc st))
                      (field d "Authorization") (field d "apikey")
                      (account_api_key (svc st)) (debug (svc st)))
             (log st1) (calls st1) (stdout st1) (fs st1)).
Proof.
  intros Hc Hcall Hd Hno.
  pose proof (send_post_request_frame env BASE_AUTH_URL auth_headers
                (auth_payload (svc st)) st) as (_ & Hsvc & _).
  unfold auth_call in Hcall. rewrite Hcall in Hsvc. simpl in Hsvc.
  rewrite (authenticate_unfold _ _ Hc).
  unfold bind at 1. rewrite Hcall.
  assert (Ht : Py.truthy (PDict d) = true) by (destruct d; [congruence | reflexivity]).
  rewrite Ht. unfold field, Py.get.
  destruct (Py.dict_get d "apikey") as [[| b | z | f | s | l | d']|];
    try (unfold_m; simpl; rewrite Hsvc; eauto; fail).
  destruct (Hno s eq_refl).
Qed.

(** A truthy answer that is no object: nothing is written. *)
Lemma authenticate_not_an_object env st v st1 :
  credentials_present (svc st) ->
  auth_call env st = (Ok v, st1) ->
  Py.truthy v = true ->
  (forall d, v <> PDict d) ->
  exists msg, authenticate env st = (Raise (AttributeError msg), st1).
Proof.
  intros Hc Hcall Hv Hno.
  rewrite (authenticate_unfold _ _ Hc).
  unfold auth_call in Hcall.
  unfold bind at 1. rewrite Hcall. rewrite Hv.
  destruct v as [| b | z | f | s | l | d];
    try (unfold_m; simpl; eauto; fail).
  destruct (Hno d eq_refl).
Qed.

(** X6: with credentials, an answer object holding a truthy
    [Authorization] and a non-empty [apikey] string makes [authenticate]
    return [True] and store the token, the key and the derived account key,
    whatever the HTTP status of that answer. *)
Theorem authenticate_success env st resp d tok key :
  credentials_present (svc st) ->
  transport env (auth_request (svc st)) = Completed resp ->
  json resp = Decoded (PDict d) ->
  Py.dict_get d "Authorization" = Some tok ->
  Py.truthy tok = true ->
  Py.dict_get d "apikey" = Some (PStr key) ->
  key <> "" ->
  result_of (authenticate env st) = Ok (PBool true)
  /\ svc (state_of (authenticate env st))
     = Service (username (svc st)) (password (svc st)) tok (PStr key)
               (PStr (derive_account_key key)) (debug (svc st)).
Proof.
  intros Hc Ht Hj Htok Htruthy Hkey Hne.
  destruct (auth_call_answer env st) as (st1 & Hcall & _).
  rewrite Ht in Hcall. unfold answer_of, body_of in Hcall. rewrite Hj in Hcall.
  rewrite (authenticate_object_response env st d key st1 Hc Hcall Hkey).
  unfold result_of, state_of, field. simpl. rewrite Htok, Htruthy.
  apply String.eqb_neq in Hne. rewrite Hne. split; reflexivity.
Qed.

Lemma authenticate_success_witness :
  let d := [("Authorization", PStr "tok"); ("apikey", PStr "key-1")] in
  let env := mock_env (fun _ => json_response 401 "{}" (PDict d)) in
  let st := fresh (Some "user") (Some "secret") in
  result_of (authenticate env st) = Ok (PBool true)
  /\ svc (state_of (authenticate env st))
     = Service (Some "user") (Some "secret") (PStr "tok") (PStr "key-1")
               (PStr (derive_account_key "key-1")) false.
Proof.
  apply (authenticate_success
           (mock_env (fun _ => json_response 401 "{}"
                       (PDict [("Authorization", PStr "tok");
                               ("apikey", PStr "key-1")])))
           (fresh (Some "user") (Some "secret"))
           (Response 401 "{}"
              (Decoded (PDict [("Authorization", PStr "tok");
                               ("apikey", PStr "key-1")])))
           [("Authorization", PStr "tok"); ("apikey", PStr "key-1")]
           (PStr "tok") "key-1").
  - split; reflexivity.
  - reflexivity.
  - reflexivity.
  - reflexivity.
  - reflexivity.
  - reflexivity.
  - discriminate.
Defined.

(** X7: [authenticate] never writes the credentials, and it keeps the
    invariant of the service object: tokens are stored only on an object
    that has credentials. *)
Theorem authenticate_keeps_invariant env st :
  consistent (svc st) ->
  let self' := svc (state_of (authenticate env st)) in
  username self' = username (svc st)
  /\ password self' = password (svc st)
  /\ consistent self'.
Proof.
  intros Hc. cbv zeta.
  destruct (authenticate env st) as [r st'] eqn:Ha.
  destruct (authenticate_credentials_unchanged env st r st' Ha) as [Hu Hp].
  pose proof (authenticate_consistent env st Hc) as Hc'.
  rewrite Ha in Hc'. unfold state_of in *. simpl in *. auto.
Qed.

Lemma authenticate_keeps_invariant_witness :
  let self' := svc (state_of (authenticate no_apikey_env
                                (fresh (Some "user") (Some "secret")))) in
  username self' = Some "user" /\ password self' = Some "secret"
  /\ consistent self'.
Proof.
  apply (authenticate_keeps_invariant no_apikey_env
           (fresh (Some "user") (Some "secret"))).
  apply init_consistent.
Defined.

(** X8: with credentials, [authenticate] issues exactly one request,
    whatever happens afterwards: a POST to the auth URL with the JSON
    content type and the two credentials as payload. *)
Theorem authenticate_issues_one_request env st :
  credentials_present (svc st) ->
  calls (state_of (authenticate env st))
  = (calls st ++ [Request POST "https://tokenizer.mypileus.io/prod/credentials"
                          [("Content-Type", PStr "application/json")]
                          (Some [("username", Py.of_opt (username (svc st)));
                                 ("password", Py.of_opt (password (svc st)))])
                          100])%list.
Proof.
  intros Hc.
  destruct (auth_call_answer env st) as (st1 & Hcall & _ & Hcalls & _).
  change (Request POST _ _ _ 100) with (auth_request (svc st)).
  rewrite <- Hcalls.
  set (v := answer_of _) in Hcall.
  destruct (Py.truthy v) eqn:Hv.
  - destruct v as [| b | z | f | s | l | d] eqn:Ev.
    1-6: destruct (authenticate_not_an_object env st _ st1 Hc Hcall Hv)
           as [msg ->]; [intros d; discriminate | reflexivity].
    destruct (Py.dict_get d "apikey") as [[| b | z | f | s | l | d']|] eqn:Hk.
    5: { rewrite (authenticate_object_response env st d s st1 Hc Hcall Hk).
         reflexivity. }
    all: destruct (authenticate_object_without_key env st d st1 Hc Hcall)
           as [msg ->];
      [ intros ->; discriminate
      | intros key; rewrite Hk; discriminate
      | reflexivity ].
  - destruct (authenticate_falsy_response env st v st1 Hc Hcall Hv) as [-> _].
    reflexivity.
Qed.

Lemma authenticate_issues_one_request_witness :
  calls (state_of (authenticate error_page_env
                     (fresh (Some "user") (Some "secret"))))
  = [Request POST "https://tokenizer.mypileus.io/prod/credentials"
             [("Content-Type", PStr "application/json")]
             (Some [("username", PStr "user"); ("password", PStr "secret")])
             100].
Proof.
  apply (authenticate_issues_one_request error_page_env
           (fresh (Some "user") (Some "secret"))).
  split; reflexivity.
Defined.

(** X9: a stale session passes for a fresh one.  On a service that already
    holds a truthy token and key, an [authenticate] whose exchange fails
    (or whose answer is otherwise falsy) changes nothing and returns
    [True]. *)
Theorem authenticate_keeps_stale_session env st :
  credentials_present (svc st) ->
  authenticated (svc st) ->
  Py.truthy (answer_of (transport env (auth_request (svc st)))) = false ->
  result_of (authenticate env st) = Ok (PBool true)
  /\ svc (state_of (authenticate env st)) = svc st.
Proof.
  intros Hc [Ht Hk] Hv.
  destruct (auth_call_answer env st) as (st1 & Hcall & _).
  destruct (authenticate_falsy_response env st _ st1 Hc Hcall Hv) as [-> Hs].
  unfold result_of, state_of. simpl. rewrite Ht, Hk. auto.
Qed.

Lemma authenticate_keeps_stale_session_witness :
  result_of (authenticate (mock_env (fun _ => Timeout)) authenticated_state)
  = Ok (PBool true)
  /\ svc (state_of (authenticate (mock_env (fun _ => Timeout))
                                 authenticated_state))
     = svc authenticated_state.
Proof.
  apply (authenticate_keeps_stale_session (mock_env (fun _ => Timeout))
           authenticated_state).
  - split; reflexivity.
  - split; reflexivity.
  - reflexivity.
Defined.

(** X10: a failed [authenticate] can destroy a session.  When the answer
    is a non-empty object whose [apikey] is missing or not a string, the
    call raises [AttributeError] after it has overwritten [auth_token] and
    [api_key] with the answer's values ([None] for a missing one);
    [account_api_key] keeps its old value. *)
Theorem authenticate_overwrites_before_raising env st d :
  credentials_present (svc st) ->
  answer_of (transport env (auth_request (svc st))) = PDict d ->
  d <> [] ->
  (forall key, Py.dict_get d "apikey" <> Some (PStr key)) ->
  (exists msg, result_of (authenticate env st) = Raise (AttributeError msg))
  /\ svc (state_of (authenticate env st))
     = Service (username (svc st)) (password (svc st))
               (field d "Authorization") (field d "apikey")
               (account_api_key (svc st)) (debug (svc st)).
Proof.
  intros Hc Ha Hd Hno.
  destruct (auth_call_answer env st) as (st1 & Hcall & _).
  rewrite Ha in Hcall.
  destruct (authenticate_object_without_key env st d st1 Hc Hcall Hd Hno)
    as [msg ->].
  unfold result_of, state_of. simpl. eauto.
Qed.

Lemma authenticate_overwrites_before_raising_witness :
  (exists msg,
     result_of (authenticate no_apikey_env authenticated_state)
     = Raise (AttributeError msg))
  /\ svc (state_of (authenticate no_apikey_env authenticated_state))
     = Service (Some "user") (Some "secret") (PStr "tok") PNone
               (PStr "key18745:0") false.
Proof.
  apply (authenticate_overwrites_before_raising no_apikey_env
           authenticated_state [("Authorization", PStr "tok")]).
  - split; reflexivity.
  - reflexivity.
  - discriminate.
  - intros key. discriminate.
Defined.

(** X11: a truthy answer that is not an object (an error page kept as raw
    text, a JSON list, number or string) makes [authenticate] raise
    [AttributeError] with the service object untouched. *)
Theorem authenticate_rejects_non_object env st :
  credentials_present (svc st) ->
  Py.truthy (answer_of (transport env (auth_request (svc st)))) = true ->
  (forall d, answer_of (transport env (auth_request (svc st))) <> PDict d) ->
  (exists msg, result_of (authenticate env st) = Raise (AttributeError msg))
  /\ svc (state_of (authenticate env st)) = svc st.
Proof.
  intros Hc Hv Hno.
  destruct (auth_call_answer env st) as (st1 & Hcall & Hsvc & _).
  destruct (authenticate_not_an_object env st _ st1 Hc Hcall Hv Hno)
    as [msg ->].
  unfold result_of, state_of. simpl. eauto.
Qed.

Lemma authenticate_rejects_non_object_witness :
  (exists msg,
     result_of (authenticate error_page_env authenticated_state)
     = Raise (AttributeError msg))
  /\ svc (state_of (authenticate error_page_env authenticated_state))
     = svc authenticated_state.
Proof.
  apply (authenticate_rejects_non_object error_page_env authenticated_state).
  - split; reflexivity.
  - reflexivity.
  - intros d. discriminate.
Defined.

(** ** The domain operations on an authenticated service *)

Lemma get_list_of_users_authenticated env st :
  authenticated (svc st) ->
  get_list_of_users env st
  = send_get_request env (BASE_API_URL ++ "/users")
      [("Authorization", auth_token (svc st)); ("apikey", api_key (svc st))] st.
Proof.
  intros Ha. apply authenticated_guard in Ha.
  unfold get_list_of_users. unfold bind at 1. unfold get_self at 1.
  rewrite Ha. reflexivity.
Qed.

Lemma get_users_and_roles_authenticated env st :
  authenticated (svc st) ->
  get_users_and_roles env st
  = send_get_request env (BASE_API_URL ++ "/users/with-roles")
      [("Authorization", auth_token (svc st)); ("apikey", api_key (svc st))] st.
Proof.
  intros Ha. apply authenticated_guard in Ha.
  unfold get_users_and_roles. unfold bind at 1. unfold get_self at 1.
  rewrite Ha. reflexivity.
Qed.

Lemma onboard_aws_account_authenticated env st id name bucket region :
  authenticated (svc st) ->
  onboard_aws_account env id name bucket region st
  = send_post_request env (onboarding_url id) (onboarding_headers (svc st))
      [("accountName", Py.of_opt name);
       ("bucketName", bucket_name_or_default bucket id);
       ("bucketRegion", Py.of_opt region)] st.
Proof.
  intros Ha. apply authenticated_guard in Ha.
  unfold onboard_aws_account. unfold bind at 1. unfold get_self at 1.
  rewrite Ha. reflexivity.
Qed.

(** X12: the keys a successful [authenticate] stores are the keys the
    operations send.  After an answer with a truthy [Authorization] [tok]
    and a non-empty [apikey] [key], the two listing operations send [tok]
    and [key] itself, and [onboard_aws_account] sends [tok] and the derived
    account key. *)
Theorem operations_send_the_stored_keys env env' st resp d tok key :
  credentials_present (svc st) ->
  transport env (auth_request (svc st)) = Completed resp ->
  json resp = Decoded (PDict d) ->
  Py.dict_get d "Authorization" = Some tok ->
  Py.truthy tok = true ->
  Py.dict_get d "apikey" = Some (PStr key) ->
  key <> "" ->
  let st1 := state_of (authenticate env st) in
  calls (state_of (get_list_of_users env' st1))
  = (calls st1 ++ [Request GET "https://api.mypileus.io/api/v1/users"
                           [("Authorization", tok); ("apikey", PStr key)]
                           None 100])%list
  /\ calls (state_of (get_users_and_roles env' st1))
     = (calls st1
          ++ [Request GET "https://api.mypileus.io/api/v1/users/with-roles"
                      [("Authorization", tok); ("apikey", PStr key)]
                      None 100])%list
  /\ forall id name bucket region,
       exists payload,
         calls (state_of (onboard_aws_account env' id name bucket region st1))
         = (calls st1
              ++ [Request POST (onboarding_url id)
                          [("Authorization", tok);
                           ("apikey", PStr (Py.str_replace key "-1" "18745:0"));
                           ("Content-Type", PStr "application/json")]
                          (Some payload) 100])%list.
Proof.
  intros Hc Ht Hj Htok Htruthy Hkey Hne. cbv zeta.
  destruct (auth_call_answer env st) as (st0 & Hcall & _).
  rewrite Ht in Hcall. unfold answer_of, body_of in Hcall. rewrite Hj in Hcall.
  rewrite (authenticate_object_response env st d key st0 Hc Hcall Hkey).
  unfold state_of at 2 4 6 7 9. simpl snd.
  unfold field. rewrite Htok.
  set (st1 := State _ _ _ _ _).
  assert (Ha : authenticated (svc st1)).
  { split; simpl; [exact Htruthy|].
    apply String.eqb_neq in Hne. rewrite Hne. reflexivity. }
  split; [|split].
  - rewrite (get_list_of_users_authenticated env' st1 Ha).
    apply send_get_request_frame.
  - rewrite (get_users_and_roles_authenticated env' st1 Ha).
    apply send_get_request_frame.
  - intros id name bucket region. eexists.
    rewrite (onboard_aws_account_authenticated env' st1 id name bucket region Ha).
    apply send_post_request_frame.
Qed.

Lemma operations_send_the_stored_keys_witness :
  let d := [("Authorization", PStr "tok"); ("apikey", PStr "key-1")] in
  let env := mock_env (fun _ => json_response 200 "{}" (PDict d)) in
  let st1 := state_of (authenticate env (fresh (Some "user") (Some "secret"))) in
  calls (state_of (get_list_of_users env st1))
  = (calls st1 ++ [Request GET "https://api.mypileus.io/api/v1/users"
                           [("Authorization", PStr "tok");
                            ("apikey", PStr "key-1")]
                           None 100])%list
  /\ calls (state_of (get_users_and_roles env st1))
     = (calls st1
          ++ [Request GET "https://api.mypileus.io/api/v1/users/with-roles"
                      [("Authorization", PStr "tok");
                       ("apikey", PStr "key-1")]
                      None 100])%list
  /\ forall id name bucket region,
       exists payload,
         calls (state_of (onboard_aws_account env id name bucket region st1))
         = (calls st1
              ++ [Request POST (onboarding_url id)
                          [("Authorization", PStr "tok");
                           ("apikey",
                            PStr (Py.str_replace "key-1" "-1" "18745:0"));
                           ("Content-Type", PStr "application/json")]
                          (Some payload) 100])%list.
Proof.
  apply (operations_send_the_stored_keys
           (mock_env (fun _ => json_response 200 "{}"
                       (PDict [("Authorization", PStr "tok");
                               ("apikey", PStr "key-1")])))
           (mock_env (fun _ => json_response 200 "{}"
                       (PDict [("Authorization", PStr "tok");
                               ("apikey", PStr "key-1")])))
           (fresh (Some "user") (Some "secret"))
           (Response 200 "{}"
              (Decoded (PDict [("Authorization", PStr "tok");
                               ("apikey", PStr "key-1")])))
           [("Authorization", PStr "tok"); ("apikey", PStr "key-1")]
           (PStr "tok") "key-1").
  - split; reflexivity.
  - reflexivity.
  - reflexivity.
  - reflexivity.
  - reflexivity.
  - reflexivity.
  - discriminate.
Defined.

(** X13: on an authenticated service, a listing operation whose exchange
    completes with a status other than 200 returns [None]; the log gains
    the status, the body text and an [ERROR] record. *)
Theorem listing_non_200_returns_none env st resp :
  authenticated (svc st) ->
  status_code resp <> 200 ->
  (transport env (users_request (svc st)) = Completed resp ->
   get_list_of_users env st
   = (Ok PNone,
      State (svc st)
            (log st ++
               [LogRecord INFO "GET Request to %s - Status Code: %s"
                          [PStr "https://api.mypileus.io/api/v1/users";
                           PInt (status_code resp)];
                LogRecord INFO "POST Request to %s - Response Text: %s"
                          [PStr "https://api.mypileus.io/api/v1/users";
                           PStr (text resp)];
                LogRecord ERROR "GET request failed: %s" [PStr (text resp)]])
            (calls st ++ [users_request (svc st)]) (stdout st) (fs st)))
  /\
  (transport env (users_with_roles_request (svc st)) = Completed resp ->
   get_users_and_roles env st
   = (Ok PNone,
      State (svc st)
            (log st ++
               [LogRecord INFO "GET Request to %s - Status Code: %s"
                          [PStr "https://api.mypileus.io/api/v1/users/with-roles";
                           PInt (status_code resp)];
                LogRecord INFO "POST Request to %s - Response Text: %s"
                          [PStr "https://api.mypileus.io/api/v1/users/with-roles";
                           PStr (text resp)];
                LogRecord ERROR "GET request failed: %s" [PStr (text resp)]])
            (calls st ++ [users_with_roles_request (svc st)])
            (stdout st) (fs st))).
Proof.
  intros Ha Hs. apply Z.eqb_neq in Hs. split; intros Ht.
  - rewrite (get_list_of_users_authenticated env st Ha).
    unfold users_request in Ht.
    unfold send_get_request. unfold_m. simpl. simpl in Ht.
    rewrite Ht, Hs. simpl. rewrite <- !app_assoc. reflexivity.
  - rewrite (get_users_and_roles_authenticated env st Ha).
    unfold users_with_roles_request in Ht.
    unfold send_get_request. unfold_m. simpl. simpl in Ht.
    rewrite Ht, Hs. simpl. rewrite <- !app_assoc. reflexivity.
Qed.

Lemma listing_non_200_returns_none_witness :
  let env := mock_env (fun _ => text_response 500 "Internal Server Error") in
  result_of (get_list_of_users env authenticated_state) = Ok PNone
  /\ result_of (get_users_and_roles env authenticated_state) = Ok PNone.
Proof.
  cbv zeta.
  destruct (listing_non_200_returns_none
              (mock_env (fun _ => text_response 500 "Internal Server Error"))
              authenticated_state
              (Response 500 "Internal Server Error"
                        (DecodeError "Expecting value")))
    as [Husers Hroles].
  - split; reflexivity.
  - simpl. lia.
  - split.
    + rewrite Husers by reflexivity. reflexivity.
    + rewrite Hroles by reflexivity. reflexivity.
Defined.




(** ** MSP onboarding, step by step *)

(** A POST only appends to the log. *)
Lemma send_post_request_log env u hs payload st :
  exists new,
    log (state_of (send_post_request env u hs payload st))
    = (log st ++ new)%list.
Proof.
  unfold send_post_request. unfold_m. simpl.
  destruct (transport env _) as [| | e | resp]; simpl; eauto.
  destruct (status_code resp =? 200); simpl; destruct (json resp); simpl;
    rewrite <- ?app_assoc; eauto.
Qed.

(** With the guard passed and the three coercions done, the method prints
    the payload, sends it, and goes on with the answer. *)
Lemma msp_run env a st ty sm aa :
  authenticated (svc st) ->
  Py.int (account_type a) = inr ty ->
  Py.int (is_customer_self_managed a) = inr sm ->
  Py.int (auto_assign_linked_accounts a) = inr aa ->
  exists st1 new,
    svc st1 = svc st
    /\ log st1 = (log st ++ new)%list
    /\ calls st1 = (calls st ++ [msp_request (svc st) a ty sm aa])%list
    /\ stdout st1 = (stdout st ++ [PDict (msp_sent_payload a ty sm aa)])%list
    /\ fs st1 = fs st
    /\ onboard_aws_account_msp env a st
       = (match msp_answer env (svc st) a ty sm aa with
          | PStr script =>
              if Py.truthy (PStr script) then save_script env a script
              else ret tt
          | _ => ret tt
          end ;;; ret PNone) st1.
Proof.
  intros Ha Hty Hsm Haa. apply authenticated_guard in Ha.
  unfold onboard_aws_account_msp, msp_payload.
  unfold bind at 1. unfold get_self at 1. rewrite Ha, Hty, Hsm, Haa.
  unfold msp_answer, msp_request, msp_sent_payload.
  set (p := remove_none (msp_payload_literal a ty sm aa)).
  set (st0 := State (svc st) (log st) (calls st) (stdout st ++ [PDict p])
                    (fs st)).
  pose proof (send_post_request_frame env (onboarding_url (account_id a))
                (onboarding_headers (svc st)) p st0)
    as (_ & Hsvc & Hcalls & Hout & Hfs).
  pose proof (send_post_request_log env (onboarding_url (account_id a))
                (onboarding_headers (svc st)) p st0) as [new Hlog].
  pose proof (send_post_request_answer env (onboarding_url (account_id a))
                (onboarding_headers (svc st)) p st0) as Hans.
  destruct (send_post_request env (onboarding_url (account_id a))
              (onboarding_headers (svc st)) p st0) as [r st1] eqn:Hrun.
  unfold result_of, state_of in *. simpl in Hsvc, Hcalls, Hout, Hfs, Hlog, Hans.
  subst r.
  exists st1, new.
  split; [exact Hsvc|]. split; [exact Hlog|]. split; [exact Hcalls|].
  split; [exact Hout|]. split; [exact Hfs|].
  unfold lift, print, bind, ret. cbv beta iota.
  fold p. fold st0. rewrite Hrun.
  destruct (answer_of _); reflexivity.
Qed.

(** The method stops at a coercion that fails, with nothing done. *)
Lemma msp_coercion_fails env a st e :
  authenticated (svc st) ->
  Py.int (account_type a) = inl e
  \/ (exists ty, Py.int (account_type a) = inr ty
                 /\ Py.int (is_customer_self_managed a) = inl e)
  \/ (exists ty sm, Py.int (account_type a) = inr ty
                    /\ Py.int (is_customer_self_managed a) = inr sm
                    /\ Py.int (auto_assign_linked_accounts a) = inl e) ->
  onboard_aws_account_msp env a st = (Raise e, st).
Proof.
  intros Ha H. apply authenticated_guard in Ha.
  unfold onboard_aws_account_msp, msp_payload.
  unfold bind at 1. unfold get_self at 1. rewrite Ha.
  destruct H as [H | [(ty & Hty & H) | (ty & sm & Hty & Hsm & H)]].
  - rewrite H. reflexivity.
  - rewrite Hty, H. reflexivity.
  - rewrite Hty, Hsm, H. reflexivity.
Qed.

Lemma msp_not_authenticated env a st :
  not_authenticated (svc st) = true ->
  onboard_aws_account_msp env a st
  = (Ok PNone, logged st authentication_required_record).
Proof.
  intros H. unfold onboard_aws_account_msp.
  unfold bind at 1. unfold get_self at 1. rewrite H. reflexivity.
Qed.

(** The coercions never raise an exception of the local machine. *)
Lemma int_failure_not_local v e : Py.int v = inl e -> ~ local_failure e.
Proof.
  destruct v as [| b | z | f | s | l | d]; simpl;
    try (intros [= <-]; simpl; tauto).
  - destruct f; simpl; intros [= <-]; simpl; tauto.
  - destruct (Py.int_of_string s); intros [= <-]; simpl; tauto.
Qed.

(** [save_script], outcome by outcome of the local machine. *)
Lemma save_script_makedirs_fails env a script s e :
  makedirs env (script_folder a) = Some e ->
  save_script env a script s = (Raise (OSError e), s).
Proof.
  intros H. unfold save_script. fold (script_folder a). rewrite H.
  reflexivity.
Qed.



Lemma save_script_done env a script s line :
  makedirs env (script_folder a) = None ->
  write_file env (script_path env a) script = None ->
  input env open_prompt_text = Some line ->
  save_script env a script s
  = (Ok tt,
     State (svc s)
           (log s ++ script_saved_record env a
              :: (if says_yes line then [folder_opened_record env a] else []))
           (calls s)
           (stdout s ++ (if says_yes line
                         then [PStr ("Opening folder: " ++ script_folder a)]
                         else []))
           (fs s ++ MakeDirs (script_folder a)
              :: WriteFile (script_path env a) script
              :: (if says_yes line
                  then [OpenFolder (open_command_for (platform_system env))
                                   (script_folder a)]
                  else []))).
Proof.
  intros H1 H2 H3. unfold save_script. fold (script_folder a). rewrite H1.
  fold (script_path env a). rewrite H2.
  fold open_prompt_text. rewrite H3.
  unfold says_yes, folder_opened_record.
  destruct (_ =? "y")%string.
  - destruct (open_folder env _ _); unfold_m; simpl;
      rewrite <- !app_assoc; reflexivity.
  - unfold_m. simpl. rewrite <- !app_assoc, app_nil_r. reflexivity.
Qed.

(** Every run of [onboard_aws_account_msp] is of one of four kinds. *)
Lemma msp_cases env a st :
  (not_authenticated (svc st) = true
   /\ onboard_aws_account_msp env a st
      = (Ok PNone, logged st authentication_required_record))
  \/ (authenticated (svc st)
      /\ exists e, ~ local_failure e
                   /\ onboard_aws_account_msp env a st = (Raise e, st))
  \/ (authenticated (svc st)
      /\ exists ty sm aa st1,
           Py.int (account_type a) = inr ty
           /\ Py.int (is_customer_self_managed a) = inr sm
           /\ Py.int (auto_assign_linked_accounts a) = inr aa
           /\ after_request st st1 a ty sm aa
           /\ ((forall script, msp_answer env (svc st) a ty sm aa = PStr script
                               -> script = "")
               /\ onboard_aws_account_msp env a st = (Ok PNone, st1)
               \/ exists script,
                    msp_answer env (svc st) a ty sm aa = PStr script
                    /\ script <> ""
                    /\ onboard_aws_account_msp env a st
                       = (save_script env a script ;;; ret PNone) st1)).
Proof.
  destruct (not_authenticated (svc st)) eqn:Hna.
  { left. split; [reflexivity | apply msp_not_authenticated; exact Hna]. }
  assert (Hauth : authenticated (svc st)).
  { unfold not_authenticated in Hna. apply orb_false_iff in Hna.
    destruct Hna as [H1 H2]. apply negb_false_iff in H1, H2.
    split; assumption. }
  right.
  destruct (Py.int (account_type a)) as [e|ty] eqn:Hty.
  { left. split; [exact Hauth|]. exists e.
    split; [exact (int_failure_not_local _ _ Hty)|].
    apply msp_coercion_fails; auto. }
  destruct (Py.int (is_customer_self_managed a)) as [e|sm] eqn:Hsm.
  { left. split; [exact Hauth|]. exists e.
    split; [exact (int_failure_not_local _ _ Hsm)|].
    apply msp_coercion_fails; eauto. }
  destruct (Py.int (auto_assign_linked_accounts a)) as [e|aa] eqn:Haa.
  { left. split; [exact Hauth|]. exists e.
    split; [exact (int_failure_not_local _ _ Haa)|].
    apply msp_coercion_fails; eauto 8. }
  right. split; [exact Hauth|].
  destruct (msp_run env a st ty sm aa Hauth Hty Hsm Haa)
    as (st1 & new & H1 & H2 & H3 & H4 & H5 & Hrun).
  exists ty, sm, aa, st1.
  split; [reflexivity|]. split; [reflexivity|]. split; [reflexivity|].
  split; [unfold after_request; eauto 8|].
  rewrite Hrun.
  destruct (msp_answer env (svc st) a ty sm aa) as [| b | z | f | s | l | d];
    try (left; split; [intros script [=] | reflexivity]).
  destruct s as [|c s].
  - left. split; [intros script [= <-]; reflexivity | reflexivity].
  - right. exists (String c s). split; [reflexivity|].
    split; [discriminate | reflexivity].
Qed.

(** X15: a raw script is saved.  When the answer to the onboarding request
    is a non-empty string (a body that does not decode, or a JSON string),
    the folder can be created, the file written and the operator answers
    the prompt, the method returns [None] after creating
    [{account_name}_{account_id}] and writing the answer, unchanged, to
    [setup.sh] in it.  The folder is opened exactly when the answer to the
    prompt is [y] or [Y] up to surrounding white space; an opening that
    fails is logged as a [WARNING] and never raised. *)
Theorem msp_saves_script env a st ty sm aa script line :
  authenticated (svc st) ->
  Py.int (account_type a) = inr ty ->
  Py.int (is_customer_self_managed a) = inr sm ->
  Py.int (auto_assign_linked_accounts a) = inr aa ->
  msp_answer env (svc st) a ty sm aa = PStr script ->
  script <> "" ->
  makedirs env (script_folder a) = None ->
  write_file env (script_path env a) script = None ->
  input env open_prompt_text = Some line ->
  let r := onboard_aws_account_msp env a st in
  result_of r = Ok PNone
  /\ fs (state_of r)
     = (fs st ++ MakeDirs (script_folder a)
          :: WriteFile (script_path env a) script
          :: (if says_yes line
              then [OpenFolder (open_command_for (platform_system env))
                               (script_folder a)]
              else []))%list
  /\ exists older,
       log (state_of r)
       = (older ++ script_saved_record env a
            :: (if says_yes line then [folder_opened_record env a]
                else []))%list.
Proof.
  intros Ha Hty Hsm Haa Hans Hne Hmk Hwr Hin. cbv zeta.
  destruct (msp_run env a st ty sm aa Ha Hty Hsm Haa)
    as (st1 & new & H1 & H2 & H3 & H4 & H5 & ->).
  rewrite Hans.
  destruct script as [|c script]; [congruence|].
  change (Py.truthy (PStr (String c script))) with true. cbv iota.
  unfold bind. rewrite (save_script_done env a _ st1 line Hmk Hwr Hin).
  unfold result_of, state_of, ret. simpl.
  split; [reflexivity|]. split; [rewrite H5; reflexivity|].
  eexists. reflexivity.
Qed.

Lemma msp_saves_script_witness :
  let env := mock_env (fun _ => text_response 200 "#!/bin/sh") in
  let r := onboard_aws_account_msp env msp_args_no_bucket
                                   authenticated_state in
  result_of r = Ok PNone
  /\ fs (state_of r)
     = [MakeDirs "Acme_123"; WriteFile "Acme_123/setup.sh" "#!/bin/sh"]
  /\ exists older,
       log (state_of r)
       = (older ++ [LogRecord INFO "Script saved to %s"
                              [PStr "Acme_123/setup.sh"]])%list.
Proof.
  apply (msp_saves_script (mock_env (fun _ => text_response 200 "#!/bin/sh"))
           msp_args_no_bucket authenticated_state 1 0 1 "#!/bin/sh" "n").
  - split; reflexivity.
  - reflexivity.
  - reflexivity.
  - reflexivity.
  - reflexivity.
  - discriminate.
  - reflexivity.
  - reflexivity.
  - reflexivity.
Defined.



(** What [save_script] raises is of the local machine; the console only
    grows. *)
Lemma save_script_effects env a script s :
  (forall e, result_of (save_script env a script s) = Raise e ->
             local_failure e)
  /\ exists more,
       stdout (state_of (save_script env a script s))
       = (stdout s ++ more)%list.
Proof.
  unfold save_script. unfold_m. simpl.
  destruct (makedirs env _); simpl.
  { split; [intros e [= <-]; exact I | exists []; symmetry; apply app_nil_r]. }
  destruct (write_file env _ _); simpl.
  { split; [intros e [= <-]; exact I | exists []; symmetry; apply app_nil_r]. }
  destruct (input env _) as [line|]; simpl.
  2: { split; [intros e [= <-]; exact I | exists []; symmetry; apply app_nil_r]. }
  destruct (_ =? "y")%string; simpl.
  2: { split; [intros e [=] | exists []; symmetry; apply app_nil_r]. }
  destruct (open_folder env _ _); simpl; (split; [intros e [=] | eauto]).
Qed.

(** X17: the file system is touched only for a script.  If a run of
    [onboard_aws_account_msp] changes anything on disk, then the service
    was authenticated, the three coercions succeeded, and the answer was a
    non-empty string whose folder could be created. *)
Theorem msp_touches_disk_only_for_script env a st :
  fs (state_of (onboard_aws_account_msp env a st)) <> fs st ->
  authenticated (svc st)
  /\ exists ty sm aa script,
       Py.int (account_type a) = inr ty
       /\ Py.int (is_customer_self_managed a) = inr sm
       /\ Py.int (auto_assign_linked_accounts a) = inr aa
       /\ msp_answer env (svc st) a ty sm aa = PStr script
       /\ script <> ""
       /\ makedirs env (script_folder a) = None.
Proof.
  intros Hfs.
  destruct (msp_cases env a st)
    as [[_ Hrun] | [(_ & e & _ & Hrun)
                   | (Ha & ty & sm & aa & st1 & Hty & Hsm & Haa & Hreq & Hrun)]].
  - rewrite Hrun in Hfs. destruct Hfs. reflexivity.
  - rewrite Hrun in Hfs. destruct Hfs. reflexivity.
  - destruct Hreq as (_ & _ & _ & _ & H5).
    destruct Hrun as [[_ Hrun] | (script & Hans & Hne & Hrun)].
    + rewrite Hrun in Hfs. destruct Hfs. exact H5.
    + split; [exact Ha|]. exists ty, sm, aa, script.
      repeat (split; [assumption|]).
      destruct (makedirs env (script_folder a)) as [e|] eqn:Hmk;
        [|reflexivity].
      rewrite Hrun in Hfs. unfold bind in Hfs.
      rewrite (save_script_makedirs_fails env a script st1 e Hmk) in Hfs.
      destruct Hfs. exact H5.
Qed.

Lemma msp_touches_disk_only_for_script_witness :
  authenticated (svc authenticated_state)
  /\ exists ty sm aa script,
       Py.int (account_type msp_args_no_bucket) = inr ty
       /\ Py.int (is_customer_self_managed msp_args_no_bucket) = inr sm
       /\ Py.int (auto_assign_linked_accounts msp_args_no_bucket) = inr aa
       /\ msp_answer (mock_env (fun _ => text_response 200 "#!/bin/sh"))
                     (svc authenticated_state) msp_args_no_bucket ty sm aa
          = PStr script
       /\ script <> ""
       /\ makedirs (mock_env (fun _ => text_response 200 "#!/bin/sh"))
                   (script_folder msp_args_no_bucket) = None.
Proof.
  apply (msp_touches_disk_only_for_script
           (mock_env (fun _ => text_response 200 "#!/bin/sh"))
           msp_args_no_bucket authenticated_state).
  vm_compute. discriminate.
Defined.

(** X18: what is printed is what is sent.  Whenever the method transmits a
    payload, the first thing it wrote to standard output is that very
    payload. *)
Theorem msp_prints_the_transmitted_payload env a st p :
  transmits env a st p ->
  exists more,
    stdout (state_of (onboard_aws_account_msp env a st))
    = (stdout st ++ PDict p :: more)%list.
Proof.
  intros (rq & Hcalls & Hp).
  assert (Hgrow : forall l : list request, l <> (l ++ [rq])%list).
  { intros l H. apply (f_equal (@List.length request)) in H.
    rewrite length_app in H. simpl in H. lia. }
  destruct (msp_cases env a st)
    as [[_ Hrun] | [(_ & e & _ & Hrun)
                   | (Ha & ty & sm & aa & st1 & Hty & Hsm & Haa & Hreq & Hrun)]].
  - rewrite Hrun in Hcalls. destruct (Hgrow _ Hcalls).
  - rewrite Hrun in Hcalls. destruct (Hgrow _ Hcalls).
  - destruct Hreq as (_ & _ & H3 & H4 & _).
    assert (Hsame : calls (state_of (onboard_aws_account_msp env a st))
                    = calls st1
                    /\ exists more,
                         stdout (state_of (onboard_aws_account_msp env a st))
                         = (stdout st1 ++ more)%list).
    { destruct Hrun as [[_ Hrun] | (script & _ & _ & Hrun)]; rewrite Hrun.
      - split; [reflexivity | exists []; symmetry; apply app_nil_r].
      - pose proof (save_script_frame env a script st1) as [_ Hc].
        pose proof (save_script_effects env a script st1) as [_ Hout].
        unfold bind, ret, state_of in *.
        destruct (save_script env a script st1) as [[u|e] s2]; simpl in *;
          auto. }
    destruct Hsame as [Hc [more Hout]].
    rewrite Hc, H3 in Hcalls. apply app_inv_head in Hcalls.
    injection Hcalls as <-. simpl in Hp. injection Hp as <-.
    exists more. rewrite Hout, H4. rewrite <- app_assoc. reflexivity.
Qed.

Lemma msp_prints_the_transmitted_payload_witness :
  exists more,
    stdout (state_of (onboard_aws_account_msp onboarding_ok_env
                        msp_args_no_bucket authenticated_state))
    = (stdout authenticated_state
         ++ PDict [("accountName", PStr "Acme"); ("bucketName", PStr "cur-123");
                   ("bucketRegion", PStr "us-east-1");
                   ("accountType", PStr "dedicated");
                   ("resellerCustomerName", PStr "Reseller");
                   ("isCustomerSelfManaged", PInt 0);
                   ("autoAssignLinkedAccounts", PInt 1)] :: more)%list.
Proof.
  apply (msp_prints_the_transmitted_payload onboarding_ok_env
           msp_args_no_bucket authenticated_state).
  eexists. split; [vm_compute; reflexivity | reflexivity].
Defined.



(** ** The entries of the MSP payload *)

Lemma dict_get_absent d k :
  ~ In k (Py.dict_keys d) -> Py.dict_get d k = None.
Proof.
  induction d as [|[k' v] d IH]; simpl; [reflexivity|].
  intros H. destruct (k' =? k)%string eqn:E.
  - apply String.eqb_eq in E. tauto.
  - apply IH. tauto.
Qed.

(** Dropping the [None] entries of a dict drops exactly the keys bound to
    [None]. *)
Lemma dict_get_remove_none d k :
  NoDup (Py.dict_keys d) ->
  Py.dict_get (remove_none d) k
  = match Py.dict_get d k with
    | Some PNone => None
    | r => r
    end.
Proof.
  induction d as [|[k' v] d IH]; simpl; [reflexivity|].
  intros Hnd. inversion Hnd as [|x l Hnotin Hnd']; subst.
  specialize (IH Hnd').
  destruct (k' =? k)%string eqn:E.
  - apply String.eqb_eq in E. subst k'.
    destruct v; simpl; rewrite ?String.eqb_refl; try reflexivity.
    rewrite IH, (dict_get_absent d k Hnotin). reflexivity.
  - destruct v; simpl; rewrite ?E; exact IH.
Qed.

Lemma msp_payload_literal_keys a ty sm aa :
  NoDup (Py.dict_keys (msp_payload_literal a ty sm aa)).
Proof.
  unfold msp_payload_literal, Py.dict_keys. simpl.
  repeat (constructor; [simpl; intuition discriminate|]).
  constructor.
Qed.

(** An entry of the payload that is sent, read off the literal. *)
Lemma msp_sent_payload_get a ty sm aa k :
  Py.dict_get (msp_sent_payload a ty sm aa) k
  = match Py.dict_get (msp_payload_literal a ty sm aa) k with
    | Some PNone => None
    | r => r
    end.
Proof.
  apply dict_get_remove_none, msp_payload_literal_keys.
Qed.

Lemma or_none_entry o :
  match Py.or_none o with PNone => None | v => Some v end
  = option_map PStr (nonempty o).
Proof.
  unfold nonempty. destruct o as [s|]; simpl; [|reflexivity].
  destruct (s =? "")%string; reflexivity.
Qed.

(** X20: the coerced entries of a transmitted payload.  [accountType] is
    ["shared"] when [int(account_type)] is 0 and ["dedicated"] for every
    other integer; [isCustomerSelfManaged] and [autoAssignLinkedAccounts]
    are the integers [int(...)] of their arguments. *)
Theorem msp_payload_coerced_entries env a st p :
  transmits env a st p ->
  exists ty sm aa,
    Py.int (account_type a) = inr ty
    /\ Py.int (is_customer_self_managed a) = inr sm
    /\ Py.int (auto_assign_linked_accounts a) = inr aa
    /\ Py.dict_get p "accountType"
       = Some (PStr (if ty =? 0 then "shared" else "dedicated"))
    /\ Py.dict_get p "isCustomerSelfManaged" = Some (PInt sm)
    /\ Py.dict_get p "autoAssignLinkedAccounts" = Some (PInt aa).
Proof.
  intros Ht.
  destruct (transmits_inv env a st p Ht) as (ty & sm & aa & Hty & Hsm & Haa & ->).
  exists ty, sm, aa.
  split; [exact Hty|]. split; [exact Hsm|]. split; [exact Haa|].
  fold (msp_sent_payload a ty sm aa). rewrite !msp_sent_payload_get.
  unfold msp_payload_literal, DEDICATED, SHARED. simpl.
  destruct (ty =? 0); auto.
Qed.

Lemma msp_payload_coerced_entries_witness :
  exists ty sm aa,
    Py.int (account_type msp_args_no_bucket) = inr ty
    /\ Py.int (is_customer_self_managed msp_args_no_bucket) = inr sm
    /\ Py.int (auto_assign_linked_accounts msp_args_no_bucket) = inr aa
    /\ Py.dict_get (msp_sent_payload msp_args_no_bucket 1 0 1) "accountType"
       = Some (PStr (if ty =? 0 then "shared" else "dedicated"))
    /\ Py.dict_get (msp_sent_payload msp_args_no_bucket 1 0 1)
                   "isCustomerSelfManaged" = Some (PInt sm)
    /\ Py.dict_get (msp_sent_payload msp_args_no_bucket 1 0 1)
                   "autoAssignLinkedAccounts" = Some (PInt aa).
Proof.
  apply (msp_payload_coerced_entries onboarding_ok_env msp_args_no_bucket
           authenticated_state).
  eexists. split; [vm_compute; reflexivity | reflexivity].
Defined.

(** X21: the text entries of a transmitted payload.  Each of the four
    optional reseller fields is sent, unchanged, when its argument is a
    non-empty string, and left out when it is [None] or empty;
    [accountName] is sent whenever it is not [None], empty or not. *)
Theorem msp_payload_text_entries env a st p :
  transmits env a st p ->
  Py.dict_get p "accountName" = option_map PStr (account_name a)
  /\ Py.dict_get p "resellerCustomerId"
     = option_map PStr (nonempty (reseller_customer_id a))
  /\ Py.dict_get p "resellerCustomerName"
     = option_map PStr (nonempty (reseller_customer_name a))
  /\ Py.dict_get p "resellerCustomerDomain"
     = option_map PStr (nonempty (reseller_customer_domain a))
  /\ Py.dict_get p "excludedLinkedAccountMatch"
     = option_map PStr (nonempty (excluded_linked_account_match a)).
Proof.
  intros Ht.
  destruct (transmits_inv env a st p Ht) as (ty & sm & aa & _ & _ & _ & ->).
  fold (msp_sent_payload a ty sm aa). rewrite !msp_sent_payload_get.
  unfold msp_payload_literal. simpl.
  rewrite !or_none_entry.
  repeat split. destruct (account_name a); reflexivity.
Qed.

Lemma msp_payload_text_entries_witness :
  let p := msp_sent_payload msp_args_no_bucket 1 0 1 in
  Py.dict_get p "accountName" = Some (PStr "Acme")
  /\ Py.dict_get p "resellerCustomerId" = None
  /\ Py.dict_get p "resellerCustomerName" = Some (PStr "Reseller")
  /\ Py.dict_get p "resellerCustomerDomain" = None
  /\ Py.dict_get p "excludedLinkedAccountMatch" = None.
Proof.
  apply (msp_payload_text_entries onboarding_ok_env msp_args_no_bucket
           authenticated_state).
  eexists. split; [vm_compute; reflexivity | reflexivity].
Defined.

(** ** The console helpers *)

Lemma get_valid_input_from_skip prompt opts allow line rest out :
  acceptable opts allow line = false ->
  exists msg,
    get_valid_input_from prompt opts allow (line :: rest) out
    = get_valid_input_from prompt opts allow rest
        (out ++ [Prompted prompt; msg]).
Proof.
  unfold acceptable. simpl.
  destruct (Py.strip line =? "")%string eqn:E; simpl.
  - intros ->. simpl. rewrite <- app_assoc. simpl. eexists. reflexivity.
  - rewrite andb_false_r. intros H. apply negb_false_iff in H. rewrite H.
    rewrite <- app_assoc. simpl. eexists. reflexivity.
Qed.

Lemma get_valid_input_from_accept prompt opts allow line rest out :
  acceptable opts allow line = true ->
  get_valid_input_from prompt opts allow (line :: rest) out
  = (Ok (accepted_value line), Console rest (out ++ [Prompted prompt])).
Proof.
  unfold acceptable, accepted_value. simpl.
  destruct (Py.strip line =? "")%string eqn:E; simpl.
  - intros ->. reflexivity.
  - rewrite andb_false_r. intros H. apply negb_true_iff in H. rewrite H.
    reflexivity.
Qed.

(** What a returned value of [get_valid_input] looks like. *)
Lemma get_valid_input_from_ok prompt opts allow lines out v c' :
  get_valid_input_from prompt opts allow lines out = (Ok v, c') ->
  exists line,
    In line lines /\ acceptable opts allow line = true
    /\ v = accepted_value line.
Proof.
  revert out. induction lines as [|line rest IH]; intros out; [discriminate|].
  destruct (acceptable opts allow line) eqn:Hacc.
  - rewrite (get_valid_input_from_accept _ _ _ _ _ _ Hacc).
    intros [= <- <-]. exists line. simpl. auto.
  - destruct (get_valid_input_from_skip prompt opts allow line rest out Hacc)
      as [msg ->].
    intros H. destruct (IH _ H) as (l & Hin & Ha & Hv).
    exists l. simpl. auto.
Qed.

Lemma acceptable_value opts allow line :
  acceptable opts allow line = true ->
  match accepted_value line with
  | None => allow = true
  | Some s => s <> "" /\ rejected_by opts s = false
  end.
Proof.
  unfold acceptable, accepted_value.
  destruct (Py.strip line =? "")%string eqn:E; [auto|].
  intros H. apply negb_true_iff in H. apply String.eqb_neq in E. auto.
Qed.

Lemma rejected_by_options o opts s :
  rejected_by (Some (o :: opts)) s = false -> In s (o :: opts).
Proof.
  unfold rejected_by. intros H. apply negb_false_iff in H.
  apply existsb_exists in H as (x & Hin & Heq).
  apply String.eqb_eq in Heq. subst. exact Hin.
Qed.

(** X22: what [get_valid_input] returns.  A returned string is the
    stripped form of a line that was read, is never empty, and is one of
    [valid_options] when that list is given and not empty.  [None] is
    returned only under [allow_empty]. *)
Theorem get_valid_input_returns prompt opts allow c v :
  fst (get_valid_input prompt opts allow c) = Ok v ->
  match v with
  | Some s =>
      s <> ""
      /\ (exists line, In line (stdin c) /\ s = Py.strip line)
      /\ (forall o rest, opts = Some (o :: rest) -> In s (o :: rest))
  | None => allow = true
  end.
Proof.
  unfold get_valid_input.
  destruct (get_valid_input_from _ _ _ _ _) as [r c'] eqn:Hrun. simpl.
  intros ->.
  destruct (get_valid_input_from_ok _ _ _ _ _ _ _ Hrun)
    as (line & Hin & Hacc & ->).
  pose proof (acceptable_value _ _ _ Hacc) as Hval.
  unfold accepted_value in *.
  destruct (Py.strip line =? "")%string; [exact Hval|].
  destruct Hval as [Hne Hrej].
  split; [exact Hne|]. split; [eauto|].
  intros o rest ->. apply rejected_by_options. exact Hrej.
Qed.

Lemma get_valid_input_returns_witness :
  "2" <> ""
  /\ (exists line, In line ["x"; ""; " 2 "; "3"] /\ "2" = Py.strip line)
  /\ (forall o rest, Some ["1"; "2"] = Some (o :: rest) -> In "2" (o :: rest)).
Proof.
  apply (get_valid_input_returns "Enter choice: " (Some ["1"; "2"]) false
           (Console ["x"; ""; " 2 "; "3"] []) (Some "2")).
  reflexivity.
Defined.

(** X23: [get_valid_input] is decided by the first acceptable line.  The
    lines before it are consumed, each answered by one message after its
    prompt; the value is taken from that line and the lines after it stay
    unread.  When no line is acceptable, the input is read to its end and
    [EOFError] is raised. *)
Theorem get_valid_input_first_acceptable prompt opts allow c :
  (forall skipped line rest,
      stdin c = (skipped ++ line :: rest)%list ->
      forallb (fun l => negb (acceptable opts allow l)) skipped = true ->
      acceptable opts allow line = true ->
      exists written,
        get_valid_input prompt opts allow c
        = (Ok (accepted_value line), Console rest (tty c ++ written))
        /\ List.length written = (2 * List.length skipped + 1)%nat)
  /\ (forallb (fun l => negb (acceptable opts allow l)) (stdin c) = true ->
      exists written,
        get_valid_input prompt opts allow c
        = (Raise EOFError, Console [] (tty c ++ written))).
Proof.
  unfold get_valid_input. destruct c as [lines out]. simpl. split.
  - intros skipped. revert lines out.
    induction skipped as [|s skipped IH]; intros lines out line rest -> Hsk Hacc.
    + cbn [app]. rewrite (get_valid_input_from_accept _ _ _ _ _ _ Hacc).
      eexists. split; reflexivity.
    + simpl in Hsk. apply andb_true_iff in Hsk as [Hs Hsk].
      apply negb_true_iff in Hs. cbn [app].
      destruct (get_valid_input_from_skip prompt opts allow s
                  (skipped ++ line :: rest) out Hs) as [msg ->].
      destruct (IH _ (out ++ [Prompted prompt; msg])%list line rest eq_refl
                  Hsk Hacc) as (written & -> & Hlen).
      exists ([Prompted prompt; msg] ++ written)%list.
      rewrite <- app_assoc. split; [reflexivity|].
      rewrite length_app, Hlen. simpl. lia.
  - revert out. induction lines as [|l lines IH]; intros out Hall.
    + simpl. eauto.
    + simpl in Hall. apply andb_true_iff in Hall as [Hl Hall].
      apply negb_true_iff in Hl.
      destruct (get_valid_input_from_skip prompt opts allow l lines out Hl)
        as [msg ->].
      destruct (IH (out ++ [Prompted prompt; msg])%list Hall) as [written ->].
      exists ([Prompted prompt; msg] ++ written)%list.
      rewrite <- app_assoc. reflexivity.
Qed.

Lemma get_valid_input_first_acceptable_witness :
  exists written,
    get_valid_input "Enter choice: " (Some ["1"; "2"]) false
                    (Console ["x"; ""; " 2 "; "3"] [])
    = (Ok (Some "2"), Console ["3"] ([] ++ written))
    /\ List.length written = 5%nat.
Proof.
  destruct (get_valid_input_first_acceptable "Enter choice: "
              (Some ["1"; "2"]) false (Console ["x"; ""; " 2 "; "3"] []))
    as [Hfirst _].
  apply (Hfirst ["x"; ""] " 2 " ["3"]); reflexivity.
Defined.

Lemma flag_test line :
  existsb (String.eqb (Py.strip line)) ["1"; "0"] = is_flag line.
Proof. unfold is_flag. cbn [existsb]. rewrite orb_false_r. reflexivity. Qed.

Lemma get_boolean_input_from_skip prompt line rest out :
  is_flag line = false ->
  get_boolean_input_from prompt (line :: rest) out
  = get_boolean_input_from prompt rest
      (out ++ [Prompted prompt;
               Printed "Invalid input. Please enter 1 for True or 0 for False."]).
Proof.
  intros H. cbn [get_boolean_input_from]. rewrite flag_test, H.
  rewrite <- app_assoc. reflexivity.
Qed.

Lemma get_boolean_input_from_accept prompt line rest out :
  is_flag line = true ->
  get_boolean_input_from prompt (line :: rest) out
  = (Ok (if (Py.strip line =? "1")%string then 1 else 0),
     Console rest (out ++ [Prompted prompt])).
Proof.
  intros H. cbn [get_boolean_input_from]. rewrite flag_test, H.
  unfold is_flag in H.
  apply orb_true_iff in H as [H | H];
    apply String.eqb_eq in H; rewrite H; reflexivity.
Qed.

Lemma get_boolean_input_from_ok prompt lines out r c' :
  get_boolean_input_from prompt lines out = (r, c') ->
  r = Ok 0 \/ r = Ok 1 \/ r = Raise EOFError.
Proof.
  revert out. induction lines as [|line rest IH]; intros out.
  - intros [= <- <-]. auto.
  - destruct (is_flag line) eqn:Hf.
    + rewrite (get_boolean_input_from_accept _ _ _ _ Hf).
      intros [= <- <-]. destruct (_ =? "1")%string; auto.
    + rewrite (get_boolean_input_from_skip _ _ _ _ Hf). apply IH.
Qed.

(** X24: [get_boolean_input] is decided by the first line that is [1] or
    [0] up to surrounding white space: it returns the integer 1 or 0 of
    that line, after one prompt and one message for each line before it,
    and leaves the lines after it unread.  It never returns anything but 0
    or 1, and never raises anything but [EOFError]. *)
Theorem get_boolean_input_first_flag prompt c :
  (forall skipped line rest,
      stdin c = (skipped ++ line :: rest)%list ->
      forallb (fun l => negb (is_flag l)) skipped = true ->
      is_flag line = true ->
      exists written,
        get_boolean_input prompt c
        = (Ok (if (Py.strip line =? "1")%string then 1 else 0),
           Console rest (tty c ++ written))
        /\ List.length written = (2 * List.length skipped + 1)%nat)
  /\ (fst (get_boolean_input prompt c) = Ok 0
      \/ fst (get_boolean_input prompt c) = Ok 1
      \/ fst (get_boolean_input prompt c) = Raise EOFError).
Proof.
  unfold get_boolean_input. destruct c as [lines out]. simpl. split.
  - intros skipped. revert lines out.
    induction skipped as [|s skipped IH]; intros lines out line rest -> Hsk Hf.
    + cbn [app]. rewrite (get_boolean_input_from_accept _ _ _ _ Hf).
      eexists. split; reflexivity.
    + simpl in Hsk. apply andb_true_iff in Hsk as [Hs Hsk].
      apply negb_true_iff in Hs. cbn [app].
      rewrite (get_boolean_input_from_skip _ _ _ _ Hs).
      match goal with
      | |- context [get_boolean_input_from _ _ (out ++ ?w)%list] =>
          destruct (IH _ (out ++ w)%list line rest eq_refl Hsk Hf)
            as (written & -> & Hlen);
          exists (w ++ written)%list
      end.
      rewrite <- app_assoc. split; [reflexivity|].
      rewrite length_app, Hlen. simpl. lia.
  - destruct (get_boolean_input_from prompt lines out) as [r c'] eqn:Hrun.
    simpl. exact (get_boolean_input_from_ok _ _ _ _ _ Hrun).
Qed.

Lemma get_boolean_input_first_flag_witness :
  exists written,
    get_boolean_input "Is Customer Self Managed? (1=True / 0=False): "
                      (Console ["yes"; " 1"; "0"] [])
    = (Ok 1, Console ["0"] ([] ++ written))
    /\ List.length written = 3%nat.
Proof.
  destruct (get_boolean_input_first_flag
              "Is Customer Self Managed? (1=True / 0=False): "
              (Console ["yes"; " 1"; "0"] [])) as [Hfirst _].
  apply (Hfirst ["yes"] " 1" ["0"]); reflexivity.
Defined.

(** ** The menu's arguments for MSP onboarding *)










(** ** Account lookup and credentials *)

(** X26: [find_account_by_condition] returns the first account on which
    the condition holds, whatever follows it, and [None] when the
    condition holds on none. *)
Theorem find_account_by_condition_first accounts condition :
  (forall before account after,
      accounts = (before ++ account :: after)%list ->
      forallb (fun x => negb (condition x)) before = true ->
      condition account = true ->
      find_account_by_condition accounts condition = account)
  /\ (forallb (fun x => negb (condition x)) accounts = true ->
      find_account_by_condition accounts condition = PNone).
Proof.
  unfold find_account_by_condition. split.
  - intros before account after -> Hb Ha.
    induction before as [|b before IH]; simpl.
    + rewrite Ha. reflexivity.
    + simpl in Hb. apply andb_true_iff in Hb as [Hb1 Hb2].
      apply negb_true_iff in Hb1. rewrite Hb1. exact (IH Hb2).
  - induction accounts as [|x accounts IH]; simpl; [reflexivity|].
    intros H. apply andb_true_iff in H as [H1 H2].
    apply negb_true_iff in H1. rewrite H1. exact (IH H2).
Qed.

Lemma find_account_by_condition_first_witness :
  find_account_by_condition
    [PDict [("accountName", PStr "Other")];
     PDict [("accountName", PStr "CloudZone-MOCB"); ("accountKey", PInt 18745)];
     PDict [("accountName", PStr "CloudZone-MOCB"); ("accountKey", PInt 7)]]
    (fun acc => match Py.get acc "accountName" with
                | inr (PStr n) => (n =? "CloudZone-MOCB")%string
                | _ => false
                end)
  = PDict [("accountName", PStr "CloudZone-MOCB"); ("accountKey", PInt 18745)].
Proof.
  destruct (find_account_by_condition_first
              [PDict [("accountName", PStr "Other")];
               PDict [("accountName", PStr "CloudZone-MOCB");
                      ("accountKey", PInt 18745)];
               PDict [("accountName", PStr "CloudZone-MOCB");
                      ("accountKey", PInt 7)]]
              (fun acc => match Py.get acc "accountName" with
                          | inr (PStr n) => (n =? "CloudZone-MOCB")%string
                          | _ => false
                          end)) as [Hfirst _].
  apply (Hfirst [PDict [("accountName", PStr "Other")]]
                (PDict [("accountName", PStr "CloudZone-MOCB");
                        ("accountKey", PInt 18745)])
                [PDict [("accountName", PStr "CloudZone-MOCB");
                        ("accountKey", PInt 7)]]); reflexivity.
Defined.



(** X28: an API key that holds no ["-1"] is its own account key, so the
    onboarding calls then send the plain API key. *)
Theorem derive_account_key_without_placeholder key :
  occurs_nowhere "-1" key = true ->
  derive_account_key key = key.
Proof.
  unfold derive_account_key.
  induction key as [|c key IH]; [reflexivity|].
  cbn [occurs_nowhere]. intros H. apply andb_true_iff in H as [Hp Hrest].
  apply negb_true_iff in Hp.
  rewrite str_replace_keep; [|discriminate|exact Hp].
  rewrite (IH Hrest). reflexivity.
Qed.

Lemma derive_account_key_without_placeholder_witness :
  derive_account_key "key-2-" = "key-2-".
Proof.
  apply (derive_account_key_without_placeholder "key-2-"). reflexivity.
Defined.

(** ** The session is written by [authenticate] only *)

(** X29: no domain operation ever writes the service object: after any
    run of [get_list_of_users], [get_users_and_roles],
    [onboard_aws_account] or [onboard_aws_account_msp], returning or
    raising, the credentials, the token and the two keys are what they
    were. *)
Theorem operations_leave_the_session_alone env st :
  svc (state_of (get_list_of_users env st)) = svc st
  /\ svc (state_of (get_users_and_roles env st)) = svc st
  /\ (forall id name bucket region,
        svc (state_of (onboard_aws_account env id name bucket region st))
        = svc st)
  /\ (forall a, svc (state_of (onboard_aws_account_msp env a st)) = svc st).
Proof.
  split; [|split; [|split]].
  - unfold get_list_of_users. unfold bind at 1. unfold get_self at 1.
    destruct (not_authenticated (svc st)); [reflexivity|].
    apply send_get_request_frame.
  - unfold get_users_and_roles. unfold bind at 1. unfold get_self at 1.
    destruct (not_authenticated (svc st)); [reflexivity|].
    apply send_get_request_frame.
  - intros id name bucket region.
    unfold onboard_aws_account. unfold bind at 1. unfold get_self at 1.
    destruct (not_authenticated (svc st)); [reflexivity|].
    apply send_post_request_frame.
  - intros a.
    destruct (msp_cases env a st)
      as [[_ ->] | [(_ & e & _ & ->)
                   | (_ & ty & sm & aa & st1 & _ & _ & _ & Hreq & Hrun)]];
      [reflexivity | reflexivity |].
    destruct Hreq as (H1 & _).
    destruct Hrun as [[_ ->] | (script & _ & _ & ->)]; [exact H1|].
    pose proof (save_script_frame env a script st1) as [Hs _].
    unfold bind, ret, state_of in *.
    destruct (save_script env a script st1) as [[u|e] s2]; simpl in *;
      rewrite Hs; exact H1.
Qed.
